(** * The job service: controller, configuration, authentication,
      execution context and job registry

    A shallow embedding of the Go sources, package by package:

    - [runtime] : the global job registry ([Register]);
    - [config]  : [Configuration], [Load], [loadEnvs], [validate];
    - [api]     : [SecretAuthenticator.DoAuth];
    - [impl]    : the job execution [Context] ([Build], [OPCommand], [Checkin]);
    - [core]    : the controller ([LaunchJob], [validJobReq]).

    The packages the sources import but do not contain are taken as they
    come: [utils] and the libraries are records of functions, [pool] is a
    class, [models] follows the data model of the spec, and [Go] holds the
    functions of Go's standard library that are written out.

    Go pointers that the code tests against [nil] are [option]s, Go maps are
    [gmap]s, Go strings are byte strings ([string]), Go's [uint] and [int]
    are integers in [Z] with their wrap-around written out, and a [panic]
    is an explicit outcome. *)

From Stdlib Require Import ZArith String Ascii List Bool Lia.
From stdpp Require Import base gmap strings list.

Import ListNotations.
Local Open Scope string_scope.
Local Open Scope nat_scope.

(** ** Outcomes of Go calls *)

(** A Go call either returns or panics. *)
Inductive Outcome (A : Type) : Type :=
| Returns (a : A)
| Panics (msg : string).

Arguments Returns {A} a.
Arguments Panics {A} msg.

Definition obind {A B : Type} (o : Outcome A) (k : A -> Outcome B) : Outcome B :=
  match o with
  | Returns a => k a
  | Panics msg => Panics msg
  end.

Definition returned {A : Type} (o : Outcome A) : Prop :=
  match o with
  | Returns _ => True
  | Panics _ => False
  end.

(** ** The parts of Go's standard library the sources call *)

Module Go.

Definition byte (c : ascii) : nat := nat_of_ascii c.

(** [unicode.IsSpace], on the UTF-8 encoding of a code point.
    One byte: tab, line feed, vertical tab, form feed, carriage return and
    space. *)
Definition isSpace1 (c : ascii) : bool :=
  let n := byte c in
  ((9 <=? n) && (n <=? 13)) || (n =? 32).

(** Two bytes: U+0085 (C2 85) and U+00A0 (C2 A0). *)
Definition isSpace2 (c1 c2 : ascii) : bool :=
  (byte c1 =? 194) && ((byte c2 =? 133) || (byte c2 =? 160)).

(** Three bytes: U+1680 (E1 9A 80), U+2000..U+200A (E2 80 80..8A),
    U+2028, U+2029 (E2 80 A8, A9), U+202F (E2 80 AF), U+205F (E2 81 9F)
    and U+3000 (E3 80 80). *)
Definition isSpace3 (c1 c2 c3 : ascii) : bool :=
  let n1 := byte c1 in
  let n2 := byte c2 in
  let n3 := byte c3 in
  ((n1 =? 225) && (n2 =? 154) && (n3 =? 128))
  || ((n1 =? 226) && (n2 =? 128)
      && (((128 <=? n3) && (n3 <=? 138)) || (n3 =? 168) || (n3 =? 169) || (n3 =? 175)))
  || ((n1 =? 226) && (n2 =? 129) && (n3 =? 159))
  || ((n1 =? 227) && (n2 =? 128) && (n3 =? 128)).

(** Dropping the leading white space. With [back] the string is read from
    its last byte (it is given reversed), as [TrimRightFunc] does with
    [DecodeLastRuneInString]. *)
Fixpoint trimLeading (back : bool) (s : string) : string :=
  match s with
  | "" => ""
  | String c1 r1 =>
      if isSpace1 c1 then trimLeading back r1
      else
        match r1 with
        | "" => s
        | String c2 r2 =>
            if (if back then isSpace2 c2 c1 else isSpace2 c1 c2)
            then trimLeading back r2
            else
              match r2 with
              | "" => s
              | String c3 r3 =>
                  if (if back then isSpace3 c3 c2 c1 else isSpace3 c1 c2 c3)
                  then trimLeading back r3
                  else s
              end
        end
  end.

(** [strings.TrimSpace]. *)
Definition TrimSpace (s : string) : string :=
  String.rev (trimLeading true (String.rev (trimLeading false s))).

(** [strings.HasPrefix s prefix]. *)
Definition HasPrefix (s pre : string) : bool := String.prefix pre s.

(** [strings.Contains s substr]: [substr] occurs in [s] (the empty string
    occurs in every string). *)
Fixpoint Contains (s substr : string) : bool :=
  String.prefix substr s
  || match s with
     | "" => false
     | String _ r => Contains r substr
     end.

(** Go's [int] and [uint] are 64 bits wide here. *)
Definition intMin : Z := - 2 ^ 63.
Definition intMax : Z := 2 ^ 63 - 1.

(** The conversion [uint(n)] of an [int]. *)
Definition uint (n : Z) : Z := n mod 2 ^ 64.

Definition digit (c : ascii) : option Z :=
  let n := byte c in
  if (48 <=? n) && (n <=? 57) then Some (Z.of_nat n - 48)%Z else None.

(** The value of a string of decimal digits, after the digits read so far. *)
Fixpoint digits (acc : Z) (s : string) : option Z :=
  match s with
  | "" => Some acc
  | String c r =>
      match digit c with
      | Some d => digits (acc * 10 + d)%Z r
      | None => None
      end
  end.

(** [strconv.Atoi]: an optional sign and at least one decimal digit; a
    value outside of [int] is a range error. [None] stands for the error. *)
Definition Atoi (s : string) : option Z :=
  let '(neg, ds) :=
    match s with
    | String "-" r => (true, r)
    | String "+" r => (false, r)
    | _ => (false, s)
    end in
  match ds with
  | "" => None
  | _ =>
      match digits 0 ds with
      | Some n =>
          let v := if neg then (- n)%Z else n in
          if ((intMin <=? v) && (v <=? intMax))%Z then Some v else None
      | None => None
      end
  end.

End Go.

(** ** Package runtime: the registry of job implementations *)

Module runtime.

Section Registry.

(** The registered implementations are values of the empty interface;
    the registry does not look into them. *)
Context {JobFunc : Type}.

(** The message of the error [Register] panics with. *)
Definition duplicateJob (jobName : string) : string :=
  "duplicate job " ++ jobName ++ " register".

(** [Register] on the global map [registerJobs]: the map after the call
    and the outcome of the call. *)
Definition Register (jobName : string) (jobFunc : JobFunc)
    (registerJobs : gmap string JobFunc) : gmap string JobFunc * Outcome unit :=
  match registerJobs !! jobName with
  | None => (<[jobName := jobFunc]> registerJobs, Returns tt)
  | Some _ => (registerJobs, Panics (duplicateJob jobName))
  end.

(** The registry after some more calls of [Register], whatever their
    outcome. *)
Inductive later_registry : gmap string JobFunc -> gmap string JobFunc -> Prop :=
| later_now jobs : later_registry jobs jobs
| later_call jobs jobs' jobName jobFunc :
    later_registry jobs jobs' ->
    later_registry jobs (fst (Register jobName jobFunc jobs')).

End Registry.

End runtime.

(** ** Package utils

    The package is not among the sources: its functions are taken as they
    come. [FileExists], [DirExists] and [ReadEnv] look at the file system and
    at the process environment, which do not change during the calls modelled
    here. *)

Module utils.

Record Utils : Type := {
  IsEmptyStr : string -> bool;
  IsValidPort : Z -> bool;
  FileExists : string -> bool;
  DirExists : string -> bool;
  ReadEnv : string -> string;
  (** the translated address and whether the translation worked *)
  TranslateRedisAddress : string -> string * bool
}.

End utils.

(** ** Package config *)

Module config.

Import utils.

Definition jobServiceProtocol : string := "JOB_SERVICE_PROTOCOL".
Definition jobServicePort : string := "JOB_SERVICE_PORT".
Definition jobServiceHTTPCert : string := "JOB_SERVICE_HTTPS_CERT".
Definition jobServiceHTTPKey : string := "JOB_SERVICE_HTTPS_KEY".
Definition jobServiceWorkerPoolBackend : string := "JOB_SERVICE_POOL_BACKEND".
Definition jobServiceWorkers : string := "JOB_SERVICE_POOL_WORKERS".
Definition jobServiceRedisURL : string := "JOB_SERVICE_POOL_REDIS_URL".
Definition jobServiceRedisNamespace : string := "JOB_SERVICE_POOL_REDIS_NAMESPACE".
Definition jobServiceLoggerBasePath : string := "JOB_SERVICE_LOGGER_BASE_PATH".
Definition jobServiceLoggerLevel : string := "JOB_SERVICE_LOGGER_LEVEL".
Definition jobServiceLoggerArchivePeriod : string := "JOB_SERVICE_LOGGER_ARCHIVE_PERIOD".
Definition JobServiceProtocolHTTPS : string := "https".
Definition JobServiceProtocolHTTP : string := "http".
Definition JobServicePoolBackendRedis : string := "redis".
Definition uiAuthSecret : string := "CORE_SECRET".
Definition redisSchema : string := "redis://".

(** The structs. A struct type whose name is also the name of a field of
    [Configuration] carries a final [T]. *)
Record HTTPSConfigT : Type := {
  Cert : string;
  Key : string
}.

Record RedisPoolConfig : Type := {
  RedisURL : string;
  Namespace : string
}.

Record PoolConfigT : Type := {
  WorkerCount : Z;
  Backend : string;
  RedisPoolCfg : option RedisPoolConfig
}.

Record LoggerConfigT : Type := {
  BasePath : string;
  LogLevel : string;
  ArchivePeriod : Z
}.

Record Configuration : Type := {
  Protocol : string;
  Port : Z;
  HTTPSConfig : option HTTPSConfigT;
  PoolConfig : option PoolConfigT;
  LoggerConfig : option LoggerConfigT
}.

(** The zero values [&HTTPSConfig{}], [&RedisPoolConfig{}], [&PoolConfig{}],
    [&LoggerConfig{}] and [&Configuration{}]. *)
Definition zeroHTTPSConfig : HTTPSConfigT := {| Cert := ""; Key := "" |}.
Definition zeroRedisPoolConfig : RedisPoolConfig := {| RedisURL := ""; Namespace := "" |}.
Definition zeroPoolConfig : PoolConfigT :=
  {| WorkerCount := 0; Backend := ""; RedisPoolCfg := None |}.
Definition zeroLoggerConfig : LoggerConfigT :=
  {| BasePath := ""; LogLevel := ""; ArchivePeriod := 0 |}.
Definition zeroConfiguration : Configuration :=
  {| Protocol := ""; Port := 0; HTTPSConfig := None; PoolConfig := None;
     LoggerConfig := None |}.

(** Assignments to one field. *)
Definition setCert (v : string) (h : HTTPSConfigT) : HTTPSConfigT :=
  {| Cert := v; Key := Key h |}.
Definition setKey (v : string) (h : HTTPSConfigT) : HTTPSConfigT :=
  {| Cert := Cert h; Key := v |}.
Definition setRedisURL (v : string) (r : RedisPoolConfig) : RedisPoolConfig :=
  {| RedisURL := v; Namespace := Namespace r |}.
Definition setNamespace (v : string) (r : RedisPoolConfig) : RedisPoolConfig :=
  {| RedisURL := RedisURL r; Namespace := v |}.
Definition setWorkerCount (v : Z) (p : PoolConfigT) : PoolConfigT :=
  {| WorkerCount := v; Backend := Backend p; RedisPoolCfg := RedisPoolCfg p |}.
Definition setBackend (v : string) (p : PoolConfigT) : PoolConfigT :=
  {| WorkerCount := WorkerCount p; Backend := v; RedisPoolCfg := RedisPoolCfg p |}.
Definition setRedisPoolCfg (v : option RedisPoolConfig) (p : PoolConfigT) : PoolConfigT :=
  {| WorkerCount := WorkerCount p; Backend := Backend p; RedisPoolCfg := v |}.
Definition setBasePath (v : string) (l : LoggerConfigT) : LoggerConfigT :=
  {| BasePath := v; LogLevel := LogLevel l; ArchivePeriod := ArchivePeriod l |}.
Definition setLogLevel (v : string) (l : LoggerConfigT) : LoggerConfigT :=
  {| BasePath := BasePath l; LogLevel := v; ArchivePeriod := ArchivePeriod l |}.
Definition setArchivePeriod (v : Z) (l : LoggerConfigT) : LoggerConfigT :=
  {| BasePath := BasePath l; LogLevel := LogLevel l; ArchivePeriod := v |}.
Definition setProtocol (v : string) (c : Configuration) : Configuration :=
  {| Protocol := v; Port := Port c; HTTPSConfig := HTTPSConfig c;
     PoolConfig := PoolConfig c; LoggerConfig := LoggerConfig c |}.
Definition setPort (v : Z) (c : Configuration) : Configuration :=
  {| Protocol := Protocol c; Port := v; HTTPSConfig := HTTPSConfig c;
     PoolConfig := PoolConfig c; LoggerConfig := LoggerConfig c |}.
Definition setHTTPSConfig (v : option HTTPSConfigT) (c : Configuration) : Configuration :=
  {| Protocol := Protocol c; Port := Port c; HTTPSConfig := v;
     PoolConfig := PoolConfig c; LoggerConfig := LoggerConfig c |}.
Definition setPoolConfig (v : option PoolConfigT) (c : Configuration) : Configuration :=
  {| Protocol := Protocol c; Port := Port c; HTTPSConfig := HTTPSConfig c;
     PoolConfig := v; LoggerConfig := LoggerConfig c |}.
Definition setLoggerConfig (v : option LoggerConfigT) (c : Configuration) : Configuration :=
  {| Protocol := Protocol c; Port := Port c; HTTPSConfig := HTTPSConfig c;
     PoolConfig := PoolConfig c; LoggerConfig := v |}.

(** [if p == nil { p = &T{} }; p.f = v]: the pointer is allocated when it
    is nil, then the field is assigned. *)
Definition assignIn {T : Type} (zero : T) (set : T -> T) (p : option T) : option T :=
  match p with
  | None => Some (set zero)
  | Some t => Some (set t)
  end.

(** [p.f = v] on a pointer the code has just found not to be nil. *)
Definition assignAt {T : Type} (set : T -> T) (p : option T) : option T :=
  match p with
  | None => None
  | Some t => Some (set t)
  end.

(** *** What [yaml.Unmarshal] does to the struct

    The YAML library is not among the sources. Decoding a document into an
    existing struct assigns the fields the document mentions and leaves the
    others as they are; a mapping decoded into a nil pointer allocates the
    struct first, and a null resets a field to its zero value. The net
    effect of a document on each field is therefore one of: nothing, a
    value that does not depend on the old one, or (for a pointer to a
    struct) the fields of a mapping decoded into the struct pointed to. *)

Inductive YPtr (Y T : Type) : Type :=
| YKeep                     (* the key does not occur *)
| YReplace (v : option T)   (* a null, possibly followed by mappings *)
| YFields (m : Y).          (* mappings, decoded into the struct in place *)

Arguments YKeep {Y T}.
Arguments YReplace {Y T} v.
Arguments YFields {Y T} m.

Record YHTTPSConfig : Type := {
  yCert : option string;
  yKey : option string
}.

Record YRedisPoolConfig : Type := {
  yRedisURL : option string;
  yNamespace : option string
}.

Record YPoolConfig : Type := {
  yWorkerCount : option Z;
  yBackend : option string;
  yRedisPoolCfg : YPtr YRedisPoolConfig RedisPoolConfig
}.

Record YLoggerConfig : Type := {
  yBasePath : option string;
  yLogLevel : option string;
  yArchivePeriod : option Z
}.

Record YConfiguration : Type := {
  yProtocol : option string;
  yPort : option Z;
  yHTTPSConfig : YPtr YHTTPSConfig HTTPSConfigT;
  yPoolConfig : YPtr YPoolConfig PoolConfigT;
  yLoggerConfig : YPtr YLoggerConfig LoggerConfigT
}.

(** A field that is assigned [v] when there is a [v]. *)
Definition assignField {A : Type} (y : option A) (old : A) : A :=
  match y with
  | Some v => v
  | None => old
  end.

Definition decodePtr {Y T : Type} (zero : T) (decode : Y -> T -> T)
    (y : YPtr Y T) (old : option T) : option T :=
  match y with
  | YKeep => old
  | YReplace v => v
  | YFields m => Some (decode m (default zero old))
  end.

Definition decodeHTTPSConfig (y : YHTTPSConfig) (h : HTTPSConfigT) : HTTPSConfigT :=
  {| Cert := assignField (yCert y) (Cert h);
     Key := assignField (yKey y) (Key h) |}.

Definition decodeRedisPoolConfig (y : YRedisPoolConfig) (r : RedisPoolConfig)
    : RedisPoolConfig :=
  {| RedisURL := assignField (yRedisURL y) (RedisURL r);
     Namespace := assignField (yNamespace y) (Namespace r) |}.

Definition decodePoolConfig (y : YPoolConfig) (p : PoolConfigT) : PoolConfigT :=
  {| WorkerCount := assignField (yWorkerCount y) (WorkerCount p);
     Backend := assignField (yBackend y) (Backend p);
     RedisPoolCfg :=
       decodePtr zeroRedisPoolConfig decodeRedisPoolConfig (yRedisPoolCfg y)
         (RedisPoolCfg p) |}.

Definition decodeLoggerConfig (y : YLoggerConfig) (l : LoggerConfigT) : LoggerConfigT :=
  {| BasePath := assignField (yBasePath y) (BasePath l);
     LogLevel := assignField (yLogLevel y) (LogLevel l);
     ArchivePeriod := assignField (yArchivePeriod y) (ArchivePeriod l) |}.

Definition decodeConfiguration (y : YConfiguration) (c : Configuration) : Configuration :=
  {| Protocol := assignField (yProtocol y) (Protocol c);
     Port := assignField (yPort y) (Port c);
     HTTPSConfig :=
       decodePtr zeroHTTPSConfig decodeHTTPSConfig (yHTTPSConfig y) (HTTPSConfig c);
     PoolConfig :=
       decodePtr zeroPoolConfig decodePoolConfig (yPoolConfig y) (PoolConfig c);
     LoggerConfig :=
       decodePtr zeroLoggerConfig decodeLoggerConfig (yLoggerConfig y)
         (LoggerConfig c) |}.

(** The libraries [Load] and [validate] call: [ioutil.ReadFile] (the data
    of the file, or an error), [url.Parse] (its error, if any) and
    [yaml.Unmarshal] (what the document assigns, and its error, if any). *)
Record Libs : Type := {
  ReadFile : string -> string + string;
  urlParse : string -> option string;
  yamlUnmarshal : string -> YConfiguration * option string
}.

(** The errors of [Load] and [validate], one for each place that makes
    one. *)
Inductive error : Type :=
| ErrReadFile (msg : string)
| ErrYaml (msg : string)
| ErrProtocol (protocol : string)
    (* protocol should be http or https, but current setting is .. *)
| ErrPort (port : Z)
    (* port number should be a none zero integer and less or equal 65535 .. *)
| ErrCertMissing (protocol : string)
    (* certificate must be configured if serve with protocol .. *)
| ErrCertInvalid (protocol : string)
    (* certificate for protocol .. is not correctly configured *)
| ErrNoWorkerPool              (* no worker pool is configured *)
| ErrBackend (backend : string) (* worker pool backend .. does not support *)
| ErrNoRedisPool (backend : string)
    (* redis pool must be configured when backend is set to '..' *)
| ErrRedisURLEmpty             (* URL of redis pool is empty *)
| ErrRedisURLSchema            (* Invalid redis URL *)
| ErrRedisURLParse (msg : string) (* Invalid redis URL: .. *)
| ErrRedisNamespace            (* namespace of redis pool is required *)
| ErrNoLogger                  (* missing logger config *)
| ErrLoggerPath (path : string) (* logger path .. not exists or should be dir *)
| ErrLoggerLevel (validLevels : string)
    (* logger level can only be one of: .. *)
| ErrArchivePeriod.            (* logger archive period should be greater than 0 *)

(** *** What [loadEnvs] and the translation of the redis URL do, field by field

    The settings the environment gives: a variable that is empty, or that
    does not hold the number it should, gives none. *)
Record EnvSettings : Type := {
  eProtocol : option string;
  ePort : option Z;
  eCert : option string;
  eKey : option string;
  eBackend : option string;
  eWorkerCount : option Z;
  eRedisURL : option string;
  eNamespace : option string;
  eBasePath : option string;
  eLogLevel : option string;
  eArchivePeriod : option Z
}.

Definition noSettings : EnvSettings :=
  {| eProtocol := None; ePort := None; eCert := None; eKey := None; eBackend := None;
     eWorkerCount := None; eRedisURL := None; eNamespace := None; eBasePath := None;
     eLogLevel := None; eArchivePeriod := None |}.

(** A field of a struct behind a pointer, assigned [v] when there is a [v];
    the struct is allocated when the pointer is nil. *)
Definition assignFieldIn {T A : Type} (zero : T) (set : A -> T -> T) (v : option A)
    (p : option T) : option T :=
  match v with
  | Some a => assignIn zero (set a) p
  | None => p
  end.

Definition envHTTPSConfig (e : EnvSettings) (protocol : string)
    (h : option HTTPSConfigT) : option HTTPSConfigT :=
  if String.eqb protocol JobServiceProtocolHTTPS then
    assignFieldIn zeroHTTPSConfig setKey (eKey e)
      (assignFieldIn zeroHTTPSConfig setCert (eCert e) h)
  else h.

Definition envRedisPoolCfg (e : EnvSettings) (p : option PoolConfigT) : option PoolConfigT :=
  match p with
  | Some pc =>
      if String.eqb (Backend pc) JobServicePoolBackendRedis then
        Some (setRedisPoolCfg
                (assignFieldIn zeroRedisPoolConfig setNamespace (eNamespace e)
                   (assignFieldIn zeroRedisPoolConfig setRedisURL (eRedisURL e)
                      (RedisPoolCfg pc))) pc)
      else p
  | None => None
  end.

Definition envPoolConfig (e : EnvSettings) (p : option PoolConfigT) : option PoolConfigT :=
  envRedisPoolCfg e
    (assignFieldIn zeroPoolConfig setWorkerCount (eWorkerCount e)
       (assignFieldIn zeroPoolConfig setBackend (eBackend e) p)).

Definition envLoggerConfig (e : EnvSettings) (l : option LoggerConfigT)
    : option LoggerConfigT :=
  assignFieldIn zeroLoggerConfig setArchivePeriod (eArchivePeriod e)
    (assignFieldIn zeroLoggerConfig setLogLevel (eLogLevel e)
       (assignFieldIn zeroLoggerConfig setBasePath (eBasePath e) l)).

Definition applySettings (e : EnvSettings) (c : Configuration) : Configuration :=
  {| Protocol := assignField (eProtocol e) (Protocol c);
     Port := assignField (ePort e) (Port c);
     HTTPSConfig :=
       envHTTPSConfig e (assignField (eProtocol e) (Protocol c)) (HTTPSConfig c);
     PoolConfig := envPoolConfig e (PoolConfig c);
     LoggerConfig := envLoggerConfig e (LoggerConfig c) |}.

(** The redis URL of a configuration, when it has one. *)
Definition poolRedisURL (p : option PoolConfigT) : option string :=
  match p with
  | Some pc =>
      match RedisPoolCfg pc with
      | Some r => Some (RedisURL r)
      | None => None
      end
  | None => None
  end.

Definition redisURL (c : Configuration) : option string := poolRedisURL (PoolConfig c).

(** The redis URL replaced by [f] of it. *)
Definition mapPoolRedisURL (f : string -> string) (p : option PoolConfigT)
    : option PoolConfigT :=
  match p with
  | Some pc =>
      Some {| WorkerCount := WorkerCount pc;
              Backend := Backend pc;
              RedisPoolCfg :=
                match RedisPoolCfg pc with
                | Some r => Some (setRedisURL (f (RedisURL r)) r)
                | None => None
                end |}
  | None => None
  end.

Definition mapRedisURL (f : string -> string) (c : Configuration) : Configuration :=
  {| Protocol := Protocol c;
     Port := Port c;
     HTTPSConfig := HTTPSConfig c;
     PoolConfig := mapPoolRedisURL f (PoolConfig c);
     LoggerConfig := LoggerConfig c |}.

(** The document that mentions no key. *)
Definition emptyDocument : YConfiguration :=
  {| yProtocol := None; yPort := None; yHTTPSConfig := YKeep; yPoolConfig := YKeep;
     yLoggerConfig := YKeep |}.

Section WithEnvironment.

Variable U : Utils.
Variable L : Libs.

(** The value of a variable of the environment that is not empty. *)
Definition readSetting (key : string) : option string :=
  if IsEmptyStr U (ReadEnv U key) then None else Some (ReadEnv U key).

(** The same for a variable that holds a number, converted to [uint]. *)
Definition readNumber (key : string) : option Z :=
  match readSetting key with
  | Some s =>
      match Go.Atoi s with
      | Some n => Some (Go.uint n)
      | None => None
      end
  | None => None
  end.

Definition readSettings : EnvSettings :=
  {| eProtocol := readSetting jobServiceProtocol;
     ePort := readNumber jobServicePort;
     eCert := readSetting jobServiceHTTPCert;
     eKey := readSetting jobServiceHTTPKey;
     eBackend := readSetting jobServiceWorkerPoolBackend;
     eWorkerCount := readNumber jobServiceWorkers;
     eRedisURL := readSetting jobServiceRedisURL;
     eNamespace := readSetting jobServiceRedisNamespace;
     eBasePath := readSetting jobServiceLoggerBasePath;
     eLogLevel := readSetting jobServiceLoggerLevel;
     eArchivePeriod := readNumber jobServiceLoggerArchivePeriod |}.

(** What [Load] makes of a redis address. *)
Definition translated (redisAddress : string) : string :=
  if IsEmptyStr U redisAddress then redisAddress
  else
    match urlParse L redisAddress with
    | Some _ =>
        let '(url, ok) := TranslateRedisAddress U redisAddress in
        if ok then url else redisAddress
    | None =>
        if Go.HasPrefix redisAddress redisSchema then redisAddress
        else (redisSchema ++ redisAddress)%string
    end.

(** [GetUIAuthSecret]. *)
Definition GetUIAuthSecret : string := ReadEnv U uiAuthSecret.

(** [GetLogBasePath] and [GetLogLevel], of the global [DefaultConfig]. *)
Definition GetLogBasePath (DefaultConfig : Configuration) : string :=
  match LoggerConfig DefaultConfig with
  | Some l => BasePath l
  | None => ""
  end.

Definition GetLogLevel (DefaultConfig : Configuration) : string :=
  match LoggerConfig DefaultConfig with
  | Some l => LogLevel l
  | None => ""
  end.

(** [loadEnvs], block by block. The protocol: *)
Definition loadEnvs_protocol (c : Configuration) : Configuration :=
  let prot := ReadEnv U jobServiceProtocol in
  if negb (IsEmptyStr U prot) then setProtocol prot c else c.

(** the port, *)
Definition loadEnvs_port (c : Configuration) : Configuration :=
  let p := ReadEnv U jobServicePort in
  if negb (IsEmptyStr U p) then
    match Go.Atoi p with
    | Some po => setPort (Go.uint po) c
    | None => c
    end
  else c.

(** the certificate and its key, only when the protocol is https, *)
Definition loadEnvs_https (c : Configuration) : Configuration :=
  if String.eqb (Protocol c) JobServiceProtocolHTTPS then
    let cert := ReadEnv U jobServiceHTTPCert in
    let c :=
      if negb (IsEmptyStr U cert) then
        match HTTPSConfig c with
        | Some h => setHTTPSConfig (Some (setCert cert h)) c
        | None => setHTTPSConfig (Some {| Cert := cert; Key := "" |}) c
        end
      else c in
    let certKey := ReadEnv U jobServiceHTTPKey in
    if negb (IsEmptyStr U certKey) then
      match HTTPSConfig c with
      | Some h => setHTTPSConfig (Some (setKey certKey h)) c
      | None => setHTTPSConfig (Some {| Cert := ""; Key := certKey |}) c
      end
    else c
  else c.

(** the backend of the worker pool, *)
Definition loadEnvs_backend (c : Configuration) : Configuration :=
  let backend := ReadEnv U jobServiceWorkerPoolBackend in
  if negb (IsEmptyStr U backend) then
    setPoolConfig (assignIn zeroPoolConfig (setBackend backend) (PoolConfig c)) c
  else c.

(** the number of workers, *)
Definition loadEnvs_workers (c : Configuration) : Configuration :=
  let workers := ReadEnv U jobServiceWorkers in
  if negb (IsEmptyStr U workers) then
    match Go.Atoi workers with
    | Some count =>
        setPoolConfig
          (assignIn zeroPoolConfig (setWorkerCount (Go.uint count)) (PoolConfig c)) c
    | None => c
    end
  else c.

(** the redis pool, only when the backend is redis, *)
Definition loadEnvs_redis (c : Configuration) : Configuration :=
  match PoolConfig c with
  | Some p =>
      if String.eqb (Backend p) JobServicePoolBackendRedis then
        let redisURL := ReadEnv U jobServiceRedisURL in
        let c :=
          if negb (IsEmptyStr U redisURL) then
            setPoolConfig
              (assignAt
                 (fun p => setRedisPoolCfg
                    (assignIn zeroRedisPoolConfig (setRedisURL redisURL)
                       (RedisPoolCfg p)) p)
                 (PoolConfig c)) c
          else c in
        let rn := ReadEnv U jobServiceRedisNamespace in
        if negb (IsEmptyStr U rn) then
          setPoolConfig
            (assignAt
               (fun p => setRedisPoolCfg
                  (assignIn zeroRedisPoolConfig (setNamespace rn) (RedisPoolCfg p)) p)
               (PoolConfig c)) c
        else c
      else c
  | None => c
  end.

(** and the logger. *)
Definition loadEnvs_logger (c : Configuration) : Configuration :=
  let loggerPath := ReadEnv U jobServiceLoggerBasePath in
  let c :=
    if negb (IsEmptyStr U loggerPath) then
      setLoggerConfig
        (assignIn zeroLoggerConfig (setBasePath loggerPath) (LoggerConfig c)) c
    else c in
  let loggerLevel := ReadEnv U jobServiceLoggerLevel in
  let c :=
    if negb (IsEmptyStr U loggerLevel) then
      setLoggerConfig
        (assignIn zeroLoggerConfig (setLogLevel loggerLevel) (LoggerConfig c)) c
    else c in
  let archivePeriod := ReadEnv U jobServiceLoggerArchivePeriod in
  if negb (IsEmptyStr U archivePeriod) then
    match Go.Atoi archivePeriod with
    | Some period =>
        setLoggerConfig
          (assignIn zeroLoggerConfig (setArchivePeriod (Go.uint period))
             (LoggerConfig c)) c
    | None => c
    end
  else c.

Definition loadEnvs (c : Configuration) : Configuration :=
  let c := loadEnvs_protocol c in
  let c := loadEnvs_port c in
  let c := loadEnvs_https c in
  let c := loadEnvs_backend c in
  let c := loadEnvs_workers c in
  let c := loadEnvs_redis c in
  loadEnvs_logger c.

(** The block of [Load] that translates the redis URL. *)
Definition translateRedisURL (c : Configuration) : Configuration :=
  match PoolConfig c with
  | Some p =>
      match RedisPoolCfg p with
      | Some r =>
          let redisAddress := RedisURL r in
          if negb (IsEmptyStr U redisAddress) then
            match urlParse L redisAddress with
            | Some _ =>
                let '(redisURL, ok) := TranslateRedisAddress U redisAddress in
                if ok then
                  setPoolConfig
                    (Some (setRedisPoolCfg (Some (setRedisURL redisURL r)) p)) c
                else c
            | None =>
                if negb (Go.HasPrefix redisAddress redisSchema) then
                  setPoolConfig
                    (Some (setRedisPoolCfg
                             (Some (setRedisURL (redisSchema ++ redisAddress) r)) p)) c
                else c
            end
          else c
      | None => c
      end
  | None => c
  end.

Definition validLevels : string := "DEBUG,INFO,WARNING,ERROR,FATAL".

(** [validate]: [None] is Go's nil error. *)
Definition validate (c : Configuration) : option error :=
  if negb (String.eqb (Protocol c) JobServiceProtocolHTTPS)
     && negb (String.eqb (Protocol c) JobServiceProtocolHTTP)
  then Some (ErrProtocol (Protocol c))
  else if negb (IsValidPort U (Port c)) then Some (ErrPort (Port c))
  else
    match
      (if String.eqb (Protocol c) JobServiceProtocolHTTPS then
         match HTTPSConfig c with
         | None => Some (ErrCertMissing (Protocol c))
         | Some h =>
             if IsEmptyStr U (Cert h) || negb (FileExists U (Cert h))
                || IsEmptyStr U (Key h) || negb (FileExists U (Key h))
             then Some (ErrCertInvalid (Protocol c))
             else None
         end
       else None)
    with
    | Some err => Some err
    | None =>
        match PoolConfig c with
        | None => Some ErrNoWorkerPool
        | Some p =>
            if negb (String.eqb (Backend p) JobServicePoolBackendRedis)
            then Some (ErrBackend (Backend p))
            else
              match
                (if String.eqb (Backend p) JobServicePoolBackendRedis then
                   match RedisPoolCfg p with
                   | None => Some (ErrNoRedisPool (Backend p))
                   | Some r =>
                       if IsEmptyStr U (RedisURL r) then Some ErrRedisURLEmpty
                       else if negb (Go.HasPrefix (RedisURL r) redisSchema)
                       then Some ErrRedisURLSchema
                       else
                         match urlParse L (RedisURL r) with
                         | Some msg => Some (ErrRedisURLParse msg)
                         | None =>
                             if IsEmptyStr U (Namespace r)
                             then Some ErrRedisNamespace
                             else None
                         end
                   end
                 else None)
              with
              | Some err => Some err
              | None =>
                  match LoggerConfig c with
                  | None => Some ErrNoLogger
                  | Some l =>
                      if negb (DirExists U (BasePath l))
                      then Some (ErrLoggerPath (BasePath l))
                      else if negb (Go.Contains validLevels (LogLevel l))
                      then Some (ErrLoggerLevel validLevels)
                      else if (ArchivePeriod l =? 0)%Z then Some ErrArchivePeriod
                      else None
                  end
              end
        end
    end.

(** [Load] on the struct [c]: the struct after the call and the error
    returned. *)
Definition Load (yamlFilePath : string) (detectEnv : bool) (c : Configuration)
    : Configuration * option error :=
  match
    (if negb (IsEmptyStr U yamlFilePath) then
       match ReadFile L yamlFilePath with
       | inr msg => inr (c, ErrReadFile msg)
       | inl data =>
           let '(y, yerr) := yamlUnmarshal L data in
           match yerr with
           | Some msg => inr (decodeConfiguration y c, ErrYaml msg)
           | None => inl (decodeConfiguration y c)
           end
       end
     else inl c)
  with
  | inr (c, err) => (c, Some err)
  | inl c =>
      let c := if detectEnv then loadEnvs c else c in
      let c := translateRedisURL c in
      (c, validate c)
  end.

End WithEnvironment.

(** [GetLogArchivePeriod], of the global [DefaultConfig]: the default is 1. *)
Definition GetLogArchivePeriod (DefaultConfig : Configuration) : Z :=
  match LoggerConfig DefaultConfig with
  | Some l => ArchivePeriod l
  | None => 1%Z
  end.

End config.

(** ** Package api: the authenticator *)

Module api.

Import utils.

Definition authHeader : string := "Authorization".

(** The part of [http.Request] that [DoAuth] reads: the header, a map
    from canonical keys to the values received. *)
Record Request : Type := {
  Header : gmap string (list string)
}.

(** [Header.Get]: the first value of the key, or the empty string.
    ([authHeader] is in canonical form already.) *)
Definition Get (h : gmap string (list string)) (key : string) : string :=
  match h !! key with
  | Some (v :: _) => v
  | _ => ""
  end.

Inductive error : Type :=
| ErrNilRequest                    (* nil request *)
| ErrHeaderMissing (header : string) (* header '..' missing *)
| ErrUnauthorized.                 (* unauthorized *)

(** [SecretAuthenticator.DoAuth]; a nil request is [None], and so is a
    nil error. *)
Definition DoAuth (U : Utils) (req : option Request) : option error :=
  match req with
  | None => Some ErrNilRequest
  | Some r =>
      let secret := Go.TrimSpace (Get (Header r) authHeader) in
      if IsEmptyStr U secret then Some (ErrHeaderMissing authHeader)
      else
        let expectedSecret := config.GetUIAuthSecret U in
        if negb (String.eqb secret expectedSecret) then Some ErrUnauthorized
        else None
  end.

End api.

(** ** Package impl: the execution context of a job *)

Module impl.

Section WithBackend.

(** What the closures of the worker pool act on, the system context and
    the loggers are not looked into. *)
Variables Backend SysContext Logger : Type.

(** [job.CheckOPCmdFunc] is [func() (string, bool)] and [job.CheckInFunc]
    is [func(string)]; a value of a func type may be nil. *)
Definition CheckOPCmdFunc : Type := Backend -> (string * bool) * Backend.
Definition CheckInFunc : Type := string -> Backend -> Backend.

(** The values of the empty interface, as far as [Build] tells them
    apart. *)
Inductive Any : Type :=
| Nil                                         (* the nil interface value *)
| OfCheckOPCmdFunc (f : option CheckOPCmdFunc)  (* a job.CheckOPCmdFunc *)
| OfCheckInFunc (f : option CheckInFunc)        (* a job.CheckInFunc *)
| OfFunc                                      (* a func of another type *)
| OfString (s : string)
| OfInt (n : Z)
| OfBool (b : bool).

Inductive Kind : Type := Func | String_ | Int | Bool.

Definition nilDereference : string :=
  "runtime error: invalid memory address or nil pointer dereference".

(** [reflect.TypeOf(v).Kind()]: [reflect.TypeOf] of the nil interface
    value is nil, and the call of [Kind] on it panics. *)
Definition kindOf (v : Any) : Outcome Kind :=
  match v with
  | Nil => Panics nilDereference
  | OfCheckOPCmdFunc _ | OfCheckInFunc _ | OfFunc => Returns Func
  | OfString _ => Returns String_
  | OfInt _ => Returns Int
  | OfBool _ => Returns Bool
  end.

(** The type assertions [v.(job.CheckOPCmdFunc)] and
    [v.(job.CheckInFunc)], with their [ok]. *)
Definition asCheckOPCmdFunc (v : Any) : option CheckOPCmdFunc * bool :=
  match v with
  | OfCheckOPCmdFunc f => (f, true)
  | _ => (None, false)
  end.

Definition asCheckInFunc (v : Any) : option CheckInFunc * bool :=
  match v with
  | OfCheckInFunc f => (f, true)
  | _ => (None, false)
  end.

Record Context : Type := {
  sysContext : SysContext;
  logger : option Logger;
  opCommandFunc : option CheckOPCmdFunc;
  checkInFunc : option CheckInFunc;
  properties : gmap string Any
}.

(** [env.JobData], as the spec gives it: the job's id, its parameters
    and the extra data. *)
Record JobData : Type := {
  ID : string;
  Args : gmap string Any;
  ExtraData : gmap string Any
}.

Inductive error : Type :=
| ErrLogger          (* failed to initialize job logger *)
| ErrOpCommandFunc   (* failed to inject opCommandFunc *)
| ErrCheckInFunc     (* failed to inject checkInFunc *)
| ErrNilCheckIn.     (* nil check in function *)

Definition setLogger (v : option Logger) (c : Context) : Context :=
  {| sysContext := sysContext c; logger := v; opCommandFunc := opCommandFunc c;
     checkInFunc := checkInFunc c; properties := properties c |}.
Definition setOpCommandFunc (v : option CheckOPCmdFunc) (c : Context) : Context :=
  {| sysContext := sysContext c; logger := logger c; opCommandFunc := v;
     checkInFunc := checkInFunc c; properties := properties c |}.
Definition setCheckInFunc (v : option CheckInFunc) (c : Context) : Context :=
  {| sysContext := sysContext c; logger := logger c; opCommandFunc := opCommandFunc c;
     checkInFunc := v; properties := properties c |}.
Definition setProperties (v : gmap string Any) (c : Context) : Context :=
  {| sysContext := sysContext c; logger := logger c; opCommandFunc := opCommandFunc c;
     checkInFunc := checkInFunc c; properties := v |}.

(** [NewContext]. *)
Definition NewContext (sysCtx : SysContext) : Context :=
  {| sysContext := sysCtx; logger := None; opCommandFunc := None;
     checkInFunc := None; properties := ∅ |}.

(** [jlogger.New] is not among the sources: the logger for a path and a
    level, or nil. *)
Variable New : string -> string -> option Logger.

(** [Build], with the global [config.DefaultConfig] it reads. *)
Definition Build (DefaultConfig : config.Configuration) (c : Context) (dep : JobData)
    : Outcome (Context + error) :=
  let jContext :=
    {| sysContext := sysContext c; logger := None; opCommandFunc := None;
       checkInFunc := None; properties := ∅ |} in
  let jContext :=
    if 0 <? size (properties c) then
      setProperties
        (map_fold (fun k v m => <[k := v]> m) (properties jContext) (properties c))
        jContext
    else jContext in
  let logPath :=
    (config.GetLogBasePath DefaultConfig ++ "/" ++ ID dep ++ ".log")%string in
  let jContext := setLogger (New logPath (config.GetLogLevel DefaultConfig)) jContext in
  match logger jContext with
  | None => Returns (inr ErrLogger)
  | Some _ =>
      obind
        (match ExtraData dep !! "opCommandFunc" with
         | Some opCommandFunc =>
             obind (kindOf opCommandFunc) (fun k =>
               match k with
               | Func =>
                   match asCheckOPCmdFunc opCommandFunc with
                   | (funcRef, true) => Returns (setOpCommandFunc funcRef jContext)
                   | (_, false) => Returns jContext
                   end
               | _ => Returns jContext
               end)
         | None => Returns jContext
         end)
        (fun jContext =>
           match opCommandFunc jContext with
           | None => Returns (inr ErrOpCommandFunc)
           | Some _ =>
               obind
                 (match ExtraData dep !! "checkInFunc" with
                  | Some checkInFunc =>
                      obind (kindOf checkInFunc) (fun k =>
                        match k with
                        | Func =>
                            match asCheckInFunc checkInFunc with
                            | (funcRef, true) =>
                                Returns (setCheckInFunc funcRef jContext)
                            | (_, false) => Returns jContext
                            end
                        | _ => Returns jContext
                        end)
                  | None => Returns jContext
                  end)
                 (fun jContext =>
                    match checkInFunc jContext with
                    | None => Returns (inr ErrCheckInFunc)
                    | Some _ => Returns (inl jContext)
                    end)
           end)
  end.

(** The call of a func value: a nil one panics. *)
Definition callCheckOPCmd (f : option CheckOPCmdFunc) (b : Backend)
    : Outcome ((string * bool) * Backend) :=
  match f with
  | Some g => Returns (g b)
  | None => Panics nilDereference
  end.

Definition callCheckIn (f : option CheckInFunc) (status : string) (b : Backend)
    : Outcome Backend :=
  match f with
  | Some g => Returns (g status b)
  | None => Panics nilDereference
  end.

(** [Checkin]: the error returned and the backend after the call. *)
Definition Checkin (c : Context) (status : string) (b : Backend)
    : Outcome (option error * Backend) :=
  match checkInFunc c with
  | Some _ => obind (callCheckIn (checkInFunc c) status b) (fun b' => Returns (None, b'))
  | None => Returns (Some ErrNilCheckIn, b)
  end.

(** [OPCommand]. *)
Definition OPCommand (c : Context) (b : Backend) : Outcome ((string * bool) * Backend) :=
  match opCommandFunc c with
  | Some _ => callCheckOPCmd (opCommandFunc c) b
  | None => Returns (("", false), b)
  end.

(** [Init] has nothing to set up yet. *)
Definition Init (c : Context) : option error := None.

(** [Get]: the property, when there is one ([None] is Go's [ok = false]). *)
Definition Get (c : Context) (prop : string) : option Any := properties c !! prop.

(** [SystemContext] and [GetLogger]. *)
Definition SystemContext (c : Context) : SysContext := sysContext c.

Definition GetLogger (c : Context) : option Logger := logger c.

End WithBackend.

Arguments Init {Backend SysContext Logger} c.
Arguments Get {Backend SysContext Logger} c prop.
Arguments SystemContext {Backend SysContext Logger} c.
Arguments GetLogger {Backend SysContext Logger} c.
Arguments Nil {Backend}.
Arguments OfCheckOPCmdFunc {Backend} f.
Arguments OfCheckInFunc {Backend} f.
Arguments OfFunc {Backend}.
Arguments OfString {Backend} s.
Arguments OfInt {Backend} n.
Arguments OfBool {Backend} b.
Arguments kindOf {Backend} v.
Arguments asCheckOPCmdFunc {Backend} v.
Arguments asCheckInFunc {Backend} v.
Arguments sysContext {Backend SysContext Logger} c.
Arguments logger {Backend SysContext Logger} c.
Arguments opCommandFunc {Backend SysContext Logger} c.
Arguments checkInFunc {Backend SysContext Logger} c.
Arguments properties {Backend SysContext Logger} c.
Arguments ID {Backend} j.
Arguments Args {Backend} j.
Arguments ExtraData {Backend} j.
Arguments NewContext {Backend SysContext Logger} sysCtx.
Arguments Build {Backend SysContext Logger} New DefaultConfig c dep.
Arguments callCheckOPCmd {Backend} f b.
Arguments callCheckIn {Backend} f status b.
Arguments Checkin {Backend SysContext Logger} c status b.
Arguments OPCommand {Backend SysContext Logger} c b.

End impl.

(** ** Package models

    Modelled from the spec: the package is not among the sources. The
    request and the stats are the records of the spec's data model, with the
    field names the controller uses; [Job] and [Metadata] are pointers. *)

Module models.

(** Values of job parameters. *)
Inductive Value : Type :=
| VNull
| VBool (b : bool)
| VNumber (n : Z)
| VString (s : string).

Record JobMetadata : Type := {
  JobKind : string;
  ScheduleDelay : N;
  Cron : string;
  IsUnique : bool
}.

Record JobData : Type := {
  Name : string;
  Parameters : gmap string Value;
  Metadata : option JobMetadata;
  StatusHook : string
}.

Record JobRequest : Type := {
  Job : option JobData
}.

Record JobStatData : Type := {
  JobID : string;
  Status : string;
  JobName : string;
  Kind : string;
  Unique : bool;
  RefLink : string;
  EnqueueTime : Z;
  UpdateTime : Z;
  RunAt : Z;
  CronSpec : string;
  CheckIn : string;
  CheckInAt : Z;
  DieAt : Z;
  HookStatus : string
}.

Record JobStats : Type := {
  Stats : JobStatData
}.

(** The zero value [models.JobStats{}]. *)
Definition zeroJobStats : JobStats :=
  {| Stats :=
       {| JobID := ""; Status := ""; JobName := ""; Kind := ""; Unique := false;
          RefLink := ""; EnqueueTime := 0; UpdateTime := 0; RunAt := 0; CronSpec := "";
          CheckIn := ""; CheckInAt := 0; DieAt := 0; HookStatus := "" |} |}.

(** [res.Stats.HookStatus = v]. *)
Definition setHookStatus (v : string) (res : JobStats) : JobStats :=
  let s := Stats res in
  {| Stats :=
       {| JobID := JobID s; Status := Status s; JobName := JobName s; Kind := Kind s;
          Unique := Unique s; RefLink := RefLink s; EnqueueTime := EnqueueTime s;
          UpdateTime := UpdateTime s; RunAt := RunAt s; CronSpec := CronSpec s;
          CheckIn := CheckIn s; CheckInAt := CheckInAt s; DieAt := DieAt s;
          HookStatus := v |} |}.

End models.

(** ** Package pool: the interface the controller talks to

    The interface is not among the sources; these are the methods
    [LaunchJob] calls, on a pool in state [P]. Each gives the state of the
    pool after the call. An error is its message, and [None] is nil.
    [IsKnownJob] gives the job type when the name is known. *)

Module pool.

Import models.

Class Interface (P JobType : Type) : Type := {
  IsKnownJob : string -> P -> option JobType * P;
  ValidateJobParameters : JobType -> gmap string Value -> P -> option string * P;
  Enqueue : string -> gmap string Value -> bool -> P -> (JobStats * option string) * P;
  Schedule :
    string -> gmap string Value -> N -> bool -> P -> (JobStats * option string) * P;
  PeriodicallyEnqueue :
    string -> gmap string Value -> string -> P -> (JobStats * option string) * P;
  RegisterHook : string -> string -> P -> option string * P
}.

(** The methods the operations on one job call. *)
Class Control (P : Type) : Type := {
  GetJobStats : string -> P -> (JobStats * option string) * P;
  StopJob : string -> P -> option string * P;
  CancelJob : string -> P -> option string * P;
  RetryJob : string -> P -> option string * P
}.

End pool.

(** ** Package core: the controller *)

Module core.

Import utils models.

Definition hookActivated : string := "activated".
Definition hookDeactivated : string := "error".

(** The job kinds of package job. *)
Definition JobKindGeneric : string := "Generic".
Definition JobKindScheduled : string := "Scheduled".
Definition JobKindPeriodic : string := "Periodic".

(** The errors of [LaunchJob]. An error of the pool is handed on as it is. *)
Inductive error : Type :=
| ErrEmptyRequest               (* empty job request is not allowed *)
| ErrNameMissing                (* name of job must be specified *)
| ErrMetadataMissing            (* metadata of job is missing *)
| ErrKindNotSupported (kind : string)
    (* job kind '..' is not supported, only support .. *)
| ErrScheduleDelay
    (* 'schedule_delay' must be specified if the job kind is 'Scheduled' *)
| ErrCronMissing
    (* 'cron_spec' must be specified if the job kind is 'Periodic' *)
| ErrCronInvalid (msg : string)   (* 'cron_spec' is not correctly set: .. *)
| ErrUnknownJob (name : string)   (* job with name '..' is unknown *)
| ErrPool (msg : string).

(** The calls of the pool, with what they answered. *)
Inductive PoolEvent : Type :=
| EvIsKnownJob (name : string) (known : bool)
| EvValidateJobParameters (params : gmap string Value) (err : option string)
| EvEnqueue (name : string) (params : gmap string Value) (isUnique : bool)
    (res : JobStats) (err : option string)
| EvSchedule (name : string) (params : gmap string Value) (delay : N) (isUnique : bool)
    (res : JobStats) (err : option string)
| EvPeriodicallyEnqueue (name : string) (params : gmap string Value) (cron : string)
    (res : JobStats) (err : option string)
| EvRegisterHook (jobID url : string) (err : option string).

(** The events that dispatch a job to the pool. *)
Definition isDispatch (ev : PoolEvent) : bool :=
  match ev with
  | EvEnqueue _ _ _ _ _ | EvSchedule _ _ _ _ _ _ | EvPeriodicallyEnqueue _ _ _ _ _ => true
  | _ => false
  end.

(** The stats the pool answered a dispatch with, when it succeeded. *)
Definition enqueued (ev : PoolEvent) : option JobStats :=
  match ev with
  | EvEnqueue _ _ _ res None | EvSchedule _ _ _ _ res None
  | EvPeriodicallyEnqueue _ _ _ res None => Some res
  | _ => None
  end.

(** What the pool answered a dispatch with. *)
Definition answered (ev : PoolEvent) : option (JobStats * option string) :=
  match ev with
  | EvEnqueue _ _ _ res err | EvSchedule _ _ _ _ res err
  | EvPeriodicallyEnqueue _ _ _ res err => Some (res, err)
  | _ => None
  end.

(** The events that register a hook. *)
Definition isRegisterHook (ev : PoolEvent) : bool :=
  match ev with
  | EvRegisterHook _ _ _ => true
  | _ => false
  end.

Section WithPool.

Variable U : Utils.
(** [cron.Parse] of the cron library: its error, if any. *)
Variable cronParse : string -> option string.

Context {P JobType : Type} {Pool : pool.Interface P JobType}.

(** The controller's pool and the calls made on it so far. *)
Record Controller : Type := {
  backendPool : P;
  calls : list PoolEvent
}.

(** Computations on the controller's pool that may panic. *)
Definition M (A : Type) : Type := Controller -> Outcome A * Controller.

Definition ret {A : Type} (a : A) : M A := fun c => (Returns a, c).

Definition bind {A B : Type} (m : M A) (k : A -> M B) : M B :=
  fun c =>
    match m c with
    | (Returns a, c') => k a c'
    | (Panics msg, c') => (Panics msg, c')
    end.

(** A call of a method of the pool, recorded. *)
Definition call {A : Type} (method : P -> A * P) (event : A -> PoolEvent) : M A :=
  fun c =>
    let '(a, p) := method (backendPool c) in
    (Returns a, {| backendPool := p; calls := calls c ++ [event a] |}).

(** [*p] of a pointer. *)
Definition deref {A : Type} (p : option A) : M A :=
  fun c =>
    match p with
    | Some a => (Returns a, c)
    | None => (Panics impl.nilDereference, c)
    end.

Definition validJobReq (req : JobRequest) : option error :=
  match Job req with
  | None => Some ErrEmptyRequest
  | Some j =>
      if IsEmptyStr U (Name j) then Some ErrNameMissing
      else
        match Metadata j with
        | None => Some ErrMetadataMissing
        | Some m =>
            if negb (String.eqb (JobKind m) JobKindGeneric)
               && negb (String.eqb (JobKind m) JobKindPeriodic)
               && negb (String.eqb (JobKind m) JobKindScheduled)
            then Some (ErrKindNotSupported (JobKind m))
            else if String.eqb (JobKind m) JobKindScheduled
                    && (ScheduleDelay m =? 0)%N
            then Some ErrScheduleDelay
            else if String.eqb (JobKind m) JobKindPeriodic then
              if IsEmptyStr U (Cron m) then Some ErrCronMissing
              else
                match cronParse (Cron m) with
                | Some msg => Some (ErrCronInvalid msg)
                | None => None
                end
            else None
        end
  end.

Definition LaunchJob (req : JobRequest) : M (JobStats * option error) :=
  match validJobReq req with
  | Some err => ret (zeroJobStats, Some err)
  | None =>
      bind (deref (Job req)) (fun j =>
      (* Validate job name *)
      bind (call (pool.IsKnownJob (Name j))
              (fun r => EvIsKnownJob (Name j) (if r is Some _ then true else false))) (fun known =>
      match known with
      | None => ret (zeroJobStats, Some (ErrUnknownJob (Name j)))
      | Some jobType =>
          (* Validate parameters *)
          bind (call (pool.ValidateJobParameters jobType (Parameters j))
                  (EvValidateJobParameters (Parameters j))) (fun verr =>
          match verr with
          | Some msg => ret (zeroJobStats, Some (ErrPool msg))
          | None =>
              (* Enqueue job regarding of the kind *)
              bind (deref (Metadata j)) (fun m =>
              bind
                (if String.eqb (JobKind m) JobKindScheduled then
                   call (pool.Schedule (Name j) (Parameters j) (ScheduleDelay m)
                           (IsUnique m))
                     (fun r => EvSchedule (Name j) (Parameters j) (ScheduleDelay m)
                                 (IsUnique m) (fst r) (snd r))
                 else if String.eqb (JobKind m) JobKindPeriodic then
                   call (pool.PeriodicallyEnqueue (Name j) (Parameters j) (Cron m))
                     (fun r => EvPeriodicallyEnqueue (Name j) (Parameters j) (Cron m)
                                 (fst r) (snd r))
                 else
                   call (pool.Enqueue (Name j) (Parameters j) (IsUnique m))
                     (fun r => EvEnqueue (Name j) (Parameters j) (IsUnique m)
                                 (fst r) (snd r)))
                (fun '(res, err) =>
              (* Register status hook? *)
              match err with
              | None =>
                  if negb (IsEmptyStr U (StatusHook j)) then
                    bind (call (pool.RegisterHook (JobID (Stats res)) (StatusHook j))
                            (EvRegisterHook (JobID (Stats res)) (StatusHook j)))
                      (fun herr =>
                    match herr with
                    | Some _ => ret (setHookStatus hookDeactivated res, None)
                    | None => ret (setHookStatus hookActivated res, None)
                    end)
                  else ret (res, None)
              | Some msg => ret (res, Some (ErrPool msg))
              end))
          end)
      end))
  end.

(** *** The checks of the metadata of a request, as the spec words them

    (The first check of the spec is that the request carries a job with a
    name that is not empty and with metadata.) *)

(** 2. the kind is one of Generic, Scheduled and Periodic; *)
Definition check2 (m : JobMetadata) : bool :=
  bool_decide (JobKind m ∈ [JobKindGeneric; JobKindScheduled; JobKindPeriodic]).

(** 3. a Scheduled job has a delay above 0; *)
Definition check3 (m : JobMetadata) : bool :=
  bool_decide (JobKind m = JobKindScheduled -> (0 < ScheduleDelay m)%N).

(** 4. a Periodic job has a cron spec that is not empty and that parses. *)
Definition check4 (m : JobMetadata) : bool :=
  bool_decide
    (JobKind m = JobKindPeriodic ->
     IsEmptyStr U (Cron m) = false /\ cronParse (Cron m) = None).

(** The errors of an invalid request. *)
Definition isInvalidRequest (err : error) : bool :=
  match err with
  | ErrEmptyRequest | ErrNameMissing | ErrMetadataMissing | ErrKindNotSupported _
  | ErrScheduleDelay | ErrCronMissing | ErrCronInvalid _ => true
  | ErrUnknownJob _ | ErrPool _ => false
  end.

End WithPool.

(** *** The operations on one job *)

(** Their errors; an error of the pool or of the file system is handed on
    as it is. *)
Inductive jobError : Type :=
| ErrEmptyJobID                      (* empty job ID *)
| ErrNoObjectFound (object : string)   (* errs.NoObjectFoundError(object) *)
| ErrReadLog (msg : string)
| ErrOfPool (msg : string).

Section WithControl.

Variable U : Utils.
Variable L : config.Libs.

Context {P : Type} {Ctl : pool.Control P}.

Definition ofPool (err : option string) : option jobError :=
  match err with
  | Some msg => Some (ErrOfPool msg)
  | None => None
  end.

(** [GetJob], on the pool in state [p]. *)
Definition GetJob (jobID : string) (p : P) : (JobStats * option jobError) * P :=
  if IsEmptyStr U jobID then ((zeroJobStats, Some ErrEmptyJobID), p)
  else
    let '((res, err), p') := pool.GetJobStats jobID p in
    ((res, ofPool err), p').

Definition StopJob (jobID : string) (p : P) : option jobError * P :=
  if IsEmptyStr U jobID then (Some ErrEmptyJobID, p)
  else
    let '(err, p') := pool.StopJob jobID p in
    (ofPool err, p').

Definition CancelJob (jobID : string) (p : P) : option jobError * P :=
  if IsEmptyStr U jobID then (Some ErrEmptyJobID, p)
  else
    let '(err, p') := pool.CancelJob jobID p in
    (ofPool err, p').

Definition RetryJob (jobID : string) (p : P) : option jobError * P :=
  if IsEmptyStr U jobID then (Some ErrEmptyJobID, p)
  else
    let '(err, p') := pool.RetryJob jobID p in
    (ofPool err, p').

(** [GetJobLogData], with the global [config.DefaultConfig] it reads: the
    data of the log, or the error. *)
Definition GetJobLogData (DefaultConfig : config.Configuration) (jobID : string)
    : string + jobError :=
  if IsEmptyStr U jobID then inr ErrEmptyJobID
  else
    let logPath :=
      (config.GetLogBasePath DefaultConfig ++ "/" ++ jobID ++ ".log")%string in
    if negb (FileExists U logPath)
    then inr (ErrNoObjectFound (jobID ++ ".log")%string)
    else
      match config.ReadFile L logPath with
      | inl logData => inl logData
      | inr msg => inr (ErrReadLog msg)
      end.

End WithControl.

End core.

(** ** An environment and a pool to run the definitions on *)

Module sample.

Import utils.

(** Package utils over an environment [env] and the files and directories
    [files] and [dirs]: a string is empty when nothing but white space is in
    it, a port is valid from 1 to 65535, and no redis address is translated. *)
Definition U (env : gmap string string) (files dirs : list string) : Utils :=
  {| IsEmptyStr := fun s => String.length (Go.TrimSpace s) =? 0;
     IsValidPort := fun p => ((0 <? p) && (p <=? 65535))%Z;
     FileExists := fun f => bool_decide (f ∈ files);
     DirExists := fun d => bool_decide (d ∈ dirs);
     ReadEnv := fun k => default "" (env !! k);
     TranslateRedisAddress := fun _ => ("", false) |}.

(** The sample of the README: the document it shows, *)
Definition document : config.YConfiguration :=
  {| config.yProtocol := Some "https";
     config.yPort := Some 9443%Z;
     config.yHTTPSConfig :=
       config.YFields
         {| config.yCert := Some "server.crt"; config.yKey := Some "server.key" |};
     config.yPoolConfig :=
       config.YFields
         {| config.yWorkerCount := Some 10%Z;
            config.yBackend := Some "redis";
            config.yRedisPoolCfg :=
              config.YFields
                {| config.yRedisURL := Some "redis:6379";
                   config.yNamespace := Some "harbor_job_service" |} |};
     config.yLoggerConfig :=
       config.YFields
         {| config.yBasePath := Some "/Users/szou/tmp/job_logs";
            config.yLogLevel := Some "INFO";
            config.yArchivePeriod := Some 1%Z |} |}.

(** the file system it supposes, *)
Definition files : list string := ["server.crt"; "server.key"].
Definition dirs : list string := ["/Users/szou/tmp/job_logs"; "/var/log/jobs"].

(** an environment that sets the port and the level, *)
Definition env : gmap string string :=
  {[ "JOB_SERVICE_PORT" := "8443"; "JOB_SERVICE_LOGGER_LEVEL" := "DEBUG" ]}.

(** and libraries that read the document from config.yml and in which every
    string parses as a URL. *)
Definition L : config.Libs :=
  {| config.ReadFile :=
       fun path =>
         if String.eqb path "config.yml" then inl "(the sample of the README)"
         else inr "no such file or directory";
     config.urlParse := fun _ => None;
     config.yamlUnmarshal := fun _ => (document, None) |}.

(** The configuration loaded from them. *)
Definition loaded : config.Configuration :=
  {| config.Protocol := "https";
     config.Port := 8443;
     config.HTTPSConfig := Some {| config.Cert := "server.crt"; config.Key := "server.key" |};
     config.PoolConfig :=
       Some {| config.WorkerCount := 10;
               config.Backend := "redis";
               config.RedisPoolCfg :=
                 Some {| config.RedisURL := "redis://redis:6379";
                         config.Namespace := "harbor_job_service" |} |};
     config.LoggerConfig :=
       Some {| config.BasePath := "/Users/szou/tmp/job_logs";
               config.LogLevel := "DEBUG";
               config.ArchivePeriod := 1 |} |}.

(** A configuration with every setting in place. *)
Definition cfg (level : string) : config.Configuration :=
  {| config.Protocol := "http";
     config.Port := 8080;
     config.HTTPSConfig := None;
     config.PoolConfig :=
       Some {| config.WorkerCount := 10;
               config.Backend := "redis";
               config.RedisPoolCfg :=
                 Some {| config.RedisURL := "redis://localhost:6379";
                         config.Namespace := "harbor_job_service" |} |};
     config.LoggerConfig :=
       Some {| config.BasePath := "/var/log/jobs";
               config.LogLevel := level;
               config.ArchivePeriod := 1 |} |}.

(** A pool that knows the job DEMO, wants its parameter image, counts the
    jobs it takes and registers the hooks sent over http. *)
Definition stats (id name kind : string) (isUnique : bool) : models.JobStats :=
  {| models.Stats :=
       {| models.JobID := id; models.Status := "pending"; models.JobName := name;
          models.Kind := kind; models.Unique := isUnique; models.RefLink := "";
          models.EnqueueTime := 0; models.UpdateTime := 0; models.RunAt := 0;
          models.CronSpec := ""; models.CheckIn := ""; models.CheckInAt := 0;
          models.DieAt := 0; models.HookStatus := "" |} |}.

#[export] Instance demoPool : pool.Interface nat unit :=
  {| pool.IsKnownJob := fun name p => (if String.eqb name "DEMO" then Some tt else None, p);
     pool.ValidateJobParameters :=
       fun _ params p =>
         (if bool_decide (is_Some (params !! "image")) then None
          else Some "missing parameter 'image'", p);
     pool.Enqueue :=
       fun name _ isUnique p => ((stats "job" name "Generic" isUnique, None), S p);
     pool.Schedule :=
       fun name _ _ isUnique p => ((stats "job" name "Scheduled" isUnique, None), S p);
     pool.PeriodicallyEnqueue :=
       fun name _ _ p => ((stats "job" name "Periodic" false, None), S p);
     pool.RegisterHook :=
       fun _ url p => (if Go.HasPrefix url "http" then None else Some "no such hook", p) |}.

(** A cron parser that takes every spec. *)
Definition cronParse (spec : string) : option string := None.

(** The same pool with a full queue, *)
Definition fullPool : pool.Interface nat unit :=
  {| pool.IsKnownJob := pool.IsKnownJob (Interface := demoPool);
     pool.ValidateJobParameters := pool.ValidateJobParameters (Interface := demoPool);
     pool.Enqueue :=
       fun name _ isUnique p => ((stats "" name "Generic" isUnique, Some "queue is full"), p);
     pool.Schedule :=
       fun name _ _ isUnique p =>
         ((stats "" name "Scheduled" isUnique, Some "queue is full"), p);
     pool.PeriodicallyEnqueue :=
       fun name _ _ p => ((stats "" name "Periodic" false, Some "queue is full"), p);
     pool.RegisterHook := pool.RegisterHook (Interface := demoPool) |}.

(** and its operations on the one job it may hold. *)
#[export] Instance demoControl : pool.Control nat :=
  {| pool.GetJobStats :=
       fun id p =>
         if String.eqb id "job" && (0 <? p) then ((stats "job" "DEMO" "Generic" false, None), p)
         else ((models.zeroJobStats, Some "job not found"), p);
     pool.StopJob :=
       fun id p => (if String.eqb id "job" then None else Some "job not found", p);
     pool.CancelJob :=
       fun id p => (if String.eqb id "job" then None else Some "job not found", Nat.pred p);
     pool.RetryJob := fun id p => (Some "job can not be retried", p) |}.

(** Libraries in which the document does not decode. *)
Definition brokenL : config.Libs :=
  {| config.ReadFile := config.ReadFile L;
     config.urlParse := config.urlParse L;
     config.yamlUnmarshal :=
       fun _ => (config.emptyDocument, Some "yaml: did not find expected key") |}.

(** Libraries that read the log of the job named job. *)
Definition logL : config.Libs :=
  {| config.ReadFile :=
       fun path =>
         if String.eqb path "/var/log/jobs/job.log" then inl "I'm running"
         else inr "no such file or directory";
     config.urlParse := config.urlParse L;
     config.yamlUnmarshal := config.yamlUnmarshal L |}.

(** A configuration with another backend and a job of the worker pool. *)
Definition otherBackend : config.Configuration :=
  {| config.Protocol := "http";
     config.Port := 8080;
     config.HTTPSConfig := None;
     config.PoolConfig :=
       Some {| config.WorkerCount := 10; config.Backend := "memory";
               config.RedisPoolCfg := None |};
     config.LoggerConfig := None |}.

Definition jobData : impl.JobData nat :=
  {| impl.ID := "job";
     impl.Args := ∅;
     impl.ExtraData :=
       {[ "opCommandFunc" := impl.OfCheckOPCmdFunc (Some (fun b => (("stop", true), b)));
          "checkInFunc" := impl.OfCheckInFunc (Some (fun status b => S b)) ]} |}.

Definition request (kind : string) (delay : N) (hook : string) : models.JobRequest :=
  {| models.Job :=
       Some {| models.Name := "DEMO";
               models.Parameters := {["image" := models.VString "demo-x"]};
               models.Metadata :=
                 Some {| models.JobKind := kind; models.ScheduleDelay := delay;
                         models.Cron := ""; models.IsUnique := false |};
               models.StatusHook := hook |} |}.

End sample.

(** * Properties *)

(** ** The registry *)

Section RegistryFacts.

Context {JobFunc : Type}.
Implicit Types (jobs : gmap string JobFunc) (jobName : string) (jobFunc : JobFunc).

(** [Register] keeps what is registered. *)
Lemma Register_keeps jobs jobName jobFunc name f :
  jobs !! name = Some f ->
  fst (runtime.Register jobName jobFunc jobs) !! name = Some f.
Proof.
  intros Hname. unfold runtime.Register.
  destruct (jobs !! jobName) as [g|] eqn:Hjob; simpl; [done|].
  rewrite lookup_insert_ne; [done|]. intros ->. congruence.
Qed.

(** So does every sequence of calls. *)
Lemma later_registry_keeps jobs jobs' name f :
  runtime.later_registry jobs jobs' -> jobs !! name = Some f -> jobs' !! name = Some f.
Proof.
  induction 1 as [|jobs jobs' jobName jobFunc _ IH]; [done|].
  intros Hname. apply Register_keeps. by apply IH.
Qed.

(** C9: the first [Register] of a name stores the implementation; after
    it, whatever else is registered, a [Register] of the same name panics and
    leaves the registry, and the implementation stored under the name, as
    they are. *)
Theorem Register_duplicate_panics jobs jobName jobFunc :
  jobs !! jobName = None ->
  runtime.Register jobName jobFunc jobs = (<[jobName := jobFunc]> jobs, Returns tt)
  /\ forall jobs' other,
       runtime.later_registry (<[jobName := jobFunc]> jobs) jobs' ->
       jobs' !! jobName = Some jobFunc
       /\ runtime.Register jobName other jobs'
          = (jobs', Panics (runtime.duplicateJob jobName)).
Proof.
  intros Hfree. split.
  - unfold runtime.Register. by rewrite Hfree.
  - intros jobs' other Hlater.
    assert (jobs' !! jobName = Some jobFunc) as Hkept.
    { eapply later_registry_keeps; [exact Hlater|]. apply lookup_insert_eq. }
    split; [exact Hkept|].
    unfold runtime.Register. by rewrite Hkept.
Qed.

End RegistryFacts.

Lemma Register_duplicate_panics_witness :
  (∅ : gmap string nat) !! "DEMO" = None
  /\ runtime.Register "DEMO" 2 (fst (runtime.Register "OTHER" 3 (<["DEMO" := 1]> ∅)))
     = (fst (runtime.Register "OTHER" 3 (<["DEMO" := 1]> ∅)),
        Panics (runtime.duplicateJob "DEMO")).
Proof.
  split; [reflexivity|].
  destruct (Register_duplicate_panics (∅ : gmap string nat) "DEMO" 1) as [_ Hlater];
    [reflexivity|].
  apply Hlater. apply runtime.later_call, runtime.later_now.
Defined.

(** ** The execution context *)

Section ContextFacts.

Context {Backend SysContext Logger : Type}.
Variable New : string -> string -> option Logger.
Implicit Types (c : impl.Context Backend SysContext Logger) (dep : impl.JobData Backend).

(** C10: on a context without the op command closure [OPCommand] returns
    the empty command and false, and on a context without the check-in
    closure [Checkin] returns an error; neither call panics nor touches the
    backend. The context of [NewContext] is such a context. *)
Theorem Context_nil_safe c (b : Backend) (status : string) (sysCtx : SysContext) :
  (impl.opCommandFunc c = None -> impl.OPCommand c b = Returns (("", false), b))
  /\ (impl.checkInFunc c = None ->
      impl.Checkin c status b = Returns (Some impl.ErrNilCheckIn, b))
  /\ impl.OPCommand (impl.NewContext (Logger := Logger) sysCtx) b = Returns (("", false), b)
  /\ impl.Checkin (impl.NewContext (Logger := Logger) sysCtx) status b
     = Returns (Some impl.ErrNilCheckIn, b).
Proof.
  repeat split.
  - intros Hnil. unfold impl.OPCommand. by rewrite Hnil.
  - intros Hnil. unfold impl.Checkin. by rewrite Hnil.
Qed.

(** The properties a context is built with are those of the template. *)
Lemma copy_properties (m : gmap string (impl.Any Backend)) :
  (if 0 <? size m then map_fold (fun k v acc => <[k := v]> acc) ∅ m else ∅) = m.
Proof.
  destruct (0 <? size m) eqn:Hsize.
  - induction m as [|k v m Hk Hfold IH] using map_first_key_ind; [done|].
    rewrite map_fold_insert_first_key by done.
    destruct (decide (m = ∅)) as [->|Hne]; [done|].
    rewrite IH; [done|].
    apply Nat.ltb_lt. destruct (size m) eqn:Hs; [|lia].
    by apply map_size_empty_iff in Hs.
  - apply Nat.ltb_ge in Hsize. symmetry. apply map_size_empty_iff. lia.
Qed.

(** [Build] with both closures in the extra data, neither of them nil, and
    a logger: the context built carries the closures. *)
Lemma Build_injects DefaultConfig c dep lg (op : impl.CheckOPCmdFunc Backend)
    (checkIn : impl.CheckInFunc Backend) :
  New (config.GetLogBasePath DefaultConfig ++ "/" ++ impl.ID dep ++ ".log")%string
      (config.GetLogLevel DefaultConfig) = Some lg ->
  impl.ExtraData dep !! "opCommandFunc" = Some (impl.OfCheckOPCmdFunc (Some op)) ->
  impl.ExtraData dep !! "checkInFunc" = Some (impl.OfCheckInFunc (Some checkIn)) ->
  impl.Build New DefaultConfig c dep
  = Returns (inl {| impl.sysContext := impl.sysContext c;
                    impl.logger := Some lg;
                    impl.opCommandFunc := Some op;
                    impl.checkInFunc := Some checkIn;
                    impl.properties := impl.properties c |}).
Proof.
  intros Hlog Hop Hin. unfold impl.Build. cbn -[Nat.ltb size map_fold].
  rewrite Hlog, Hop. cbn -[Nat.ltb size map_fold].
  rewrite Hin. cbn -[Nat.ltb size map_fold].
  pose proof (copy_properties (impl.properties c)) as Hcopy.
  destruct (0 <? size (impl.properties c)); cbn -[map_fold] in *.
  - by rewrite Hcopy.
  - by rewrite <- Hcopy.
Qed.

(** [Build] returns an error when the extra data has no op command closure:
    no entry, an entry of another type, or a nil func; the nil interface
    value is the one entry left out. *)
Lemma Build_opCommandFunc_missing DefaultConfig c dep :
  impl.ExtraData dep !! "opCommandFunc" <> Some impl.Nil ->
  (forall f, impl.ExtraData dep !! "opCommandFunc"
             <> Some (impl.OfCheckOPCmdFunc (Some f))) ->
  exists err, impl.Build New DefaultConfig c dep = Returns (inr err).
Proof.
  intros Hnil Hfunc. unfold impl.Build. cbn -[Nat.ltb size map_fold].
  destruct (New _ _); [|by eexists].
  destruct (impl.ExtraData dep !! "opCommandFunc") as [[|[f|]| | | | |]|];
    [by destruct Hnil | by destruct (Hfunc f) | ..].
  all: cbn -[Nat.ltb size map_fold].
  all: destruct (0 <? size (impl.properties c)); cbn; by eexists.
Qed.

(** The same for the check-in closure, once the op command closure is
    there. *)
Lemma Build_checkInFunc_missing DefaultConfig c dep lg (op : impl.CheckOPCmdFunc Backend) :
  New (config.GetLogBasePath DefaultConfig ++ "/" ++ impl.ID dep ++ ".log")%string
      (config.GetLogLevel DefaultConfig) = Some lg ->
  impl.ExtraData dep !! "opCommandFunc" = Some (impl.OfCheckOPCmdFunc (Some op)) ->
  impl.ExtraData dep !! "checkInFunc" <> Some impl.Nil ->
  (forall f, impl.ExtraData dep !! "checkInFunc" <> Some (impl.OfCheckInFunc (Some f))) ->
  exists err, impl.Build New DefaultConfig c dep = Returns (inr err).
Proof.
  intros Hlog Hop Hnil Hfunc. unfold impl.Build. cbn -[Nat.ltb size map_fold].
  rewrite Hlog, Hop. cbn -[Nat.ltb size map_fold].
  destruct (impl.ExtraData dep !! "checkInFunc") as [[| |[f|]| | | |]|];
    [by destruct Hnil | | by destruct (Hfunc f) | ..].
  all: cbn -[Nat.ltb size map_fold].
  all: destruct (0 <? size (impl.properties c)); cbn; by eexists.
Qed.

(** C4, where the code leaves it: an entry opCommandFunc that holds the
    nil interface value is not a [job.CheckOPCmdFunc], and [Build] panics on
    it instead of returning an error. *)
Theorem Build_nil_entry_panics DefaultConfig c dep lg :
  New (config.GetLogBasePath DefaultConfig ++ "/" ++ impl.ID dep ++ ".log")%string
      (config.GetLogLevel DefaultConfig) = Some lg ->
  impl.ExtraData dep !! "opCommandFunc" = Some impl.Nil ->
  impl.Build New DefaultConfig c dep = Panics impl.nilDereference.
Proof.
  intros Hlog Hop. unfold impl.Build. cbn -[Nat.ltb size map_fold].
  rewrite Hlog, Hop. reflexivity.
Qed.

End ContextFacts.

Lemma Context_nil_safe_witness :
  impl.OPCommand (impl.NewContext (Backend := nat) (Logger := unit) tt) 0
  = Returns (("", false), 0)
  /\ impl.Checkin (impl.NewContext (Backend := nat) (Logger := unit) tt) "30%" 0
     = Returns (Some impl.ErrNilCheckIn, 0).
Proof.
  destruct (Context_nil_safe (impl.NewContext (Backend := nat) (Logger := unit) tt)
              0 "30%" tt) as (Hop & Hin & _).
  split; [apply Hop | apply Hin]; reflexivity.
Defined.

Lemma Build_nil_entry_panics_witness :
  impl.Build (Backend := unit) (SysContext := unit) (fun _ _ => Some tt)
    (sample.cfg "INFO") (impl.NewContext tt)
    {| impl.ID := "job"; impl.Args := ∅;
       impl.ExtraData :=
         {[ "opCommandFunc" := impl.Nil;
            "checkInFunc" := impl.OfCheckInFunc (Some (fun _ b => b)) ]} |}
  = Panics impl.nilDereference.
Proof.
  apply (Build_nil_entry_panics (fun _ _ => Some tt) _ _ _ tt); reflexivity.
Defined.

(** ** The authenticator *)

(** [DoAuth] accepts a request exactly when the whole value of its
    Authorization header, without the surrounding white space, is not empty
    and is the secret of the environment. *)
Lemma DoAuth_accepts_iff (U : utils.Utils) (r : api.Request) :
  api.DoAuth U (Some r) = None
  <-> utils.IsEmptyStr U (Go.TrimSpace (api.Get (api.Header r) api.authHeader)) = false
      /\ Go.TrimSpace (api.Get (api.Header r) api.authHeader) = config.GetUIAuthSecret U.
Proof.
  unfold api.DoAuth.
  destruct (utils.IsEmptyStr U _).
  { split; [discriminate|]. intros [Hempty _]. discriminate. }
  destruct (String.eqb_spec (Go.TrimSpace (api.Get (api.Header r) api.authHeader))
              (config.GetUIAuthSecret U)) as [Heq|Hne]; cbn.
  - split; [intros _; by split | done].
  - split; [discriminate|]. intros [_ Heq]. by destruct Hne.
Qed.

(** A nil request is an error. *)
Lemma DoAuth_nil_request (U : utils.Utils) : api.DoAuth U None = Some api.ErrNilRequest.
Proof. reflexivity. Qed.

(** C3, where the code leaves it: with the secret s3cr3t in CORE_SECRET, a
    request whose header is [Authorization: Harbor-Secret s3cr3t] is turned
    down as unauthorized, and a request whose header is the bare secret is
    let in. *)
Theorem DoAuth_compares_whole_header :
  let U := sample.U {[ "CORE_SECRET" := "s3cr3t" ]} [] [] in
  api.DoAuth U (Some {| api.Header := {[ "Authorization" := ["Harbor-Secret s3cr3t"] ]} |})
  = Some api.ErrUnauthorized
  /\ api.DoAuth U (Some {| api.Header := {[ "Authorization" := ["s3cr3t"] ]} |}) = None.
Proof. split; vm_compute; reflexivity. Qed.

(** ** The configuration *)

(** What [strings.Contains] finds in the list of levels. *)
Example Contains_levels :
  Go.Contains config.validLevels "WARNING" = true
  /\ Go.Contains config.validLevels "WARN" = true
  /\ Go.Contains config.validLevels "" = true
  /\ Go.Contains config.validLevels "TRACE" = false.
Proof. repeat split. Qed.

(** [validate] looks at the level only through [strings.Contains]. *)
Lemma validate_level (U : utils.Utils) (L : config.Libs) (c : config.Configuration)
    (l : config.LoggerConfigT) (level : string) :
  config.validate U L c = None ->
  config.LoggerConfig c = Some l ->
  Go.Contains config.validLevels level = true ->
  config.validate U L (config.setLoggerConfig (Some (config.setLogLevel level l)) c) = None.
Proof.
  unfold config.validate. intros Hvalid Hl Hlevel. cbn. rewrite Hl in Hvalid.
  repeat match type of Hvalid with
         | (if ?b then _ else _) = None => destruct b; [discriminate|]
         | match ?o with _ => _ end = None => destruct o; try discriminate
         end; cbn in *.
  all: rewrite Hlevel; cbn.
  all: repeat match type of Hvalid with
         | (if ?b then _ else _) = None => destruct b; [discriminate|]
         end; done.
Qed.

(** C5, where the code leaves it: a configuration that is in order in
    everything else is accepted with the level WARN, and with an empty level,
    neither of which is one of the five levels. *)
Theorem validate_accepts_WARN :
  let U := sample.U ∅ [] ["/var/log/jobs"] in
  config.validate U sample.L (sample.cfg "WARN") = None
  /\ config.validate U sample.L (sample.cfg "") = None
  /\ config.validate U sample.L (sample.cfg "TRACE")
     = Some (config.ErrLoggerLevel config.validLevels).
Proof. repeat split; vm_compute; reflexivity. Qed.

(** ** The controller *)

Section ControllerFacts.

Variable U : utils.Utils.
Variable cronParse : string -> option string.
Context {P JobType : Type} {Pool : pool.Interface P JobType}.
Implicit Types (req : models.JobRequest) (j : models.JobData) (m : models.JobMetadata)
  (c : core.Controller (P := P)).

Local Abbreviation validJobReq := (core.validJobReq U cronParse).
Local Abbreviation LaunchJob := (core.LaunchJob U cronParse).

(** A request that [validJobReq] turns down never reaches the pool. *)
Lemma LaunchJob_invalid req err c :
  validJobReq req = Some err ->
  LaunchJob req c = (Returns (models.zeroJobStats, Some err), c).
Proof. intros Hinvalid. unfold core.LaunchJob. by rewrite Hinvalid. Qed.

(** The checks of the spec are the tests of the code. *)
Lemma check2_eqb m :
  core.check2 m
  = negb (negb (String.eqb (models.JobKind m) core.JobKindGeneric)
          && negb (String.eqb (models.JobKind m) core.JobKindPeriodic)
          && negb (String.eqb (models.JobKind m) core.JobKindScheduled)).
Proof.
  unfold core.check2.
  destruct (String.eqb_spec (models.JobKind m) core.JobKindGeneric) as [->|Hg];
    [by rewrite bool_decide_eq_true_2 by repeat constructor|].
  destruct (String.eqb_spec (models.JobKind m) core.JobKindPeriodic) as [->|Hp];
    [by rewrite bool_decide_eq_true_2 by repeat constructor|].
  destruct (String.eqb_spec (models.JobKind m) core.JobKindScheduled) as [->|Hs];
    [by rewrite bool_decide_eq_true_2 by repeat constructor|].
  rewrite bool_decide_eq_false_2; [done|].
  rewrite !elem_of_cons, elem_of_nil. tauto.
Qed.

Lemma check3_eqb m :
  core.check3 m
  = negb (String.eqb (models.JobKind m) core.JobKindScheduled
          && (models.ScheduleDelay m =? 0)%N).
Proof.
  unfold core.check3.
  destruct (String.eqb_spec (models.JobKind m) core.JobKindScheduled) as [Hs|Hs]; cbn.
  - destruct (N.eqb_spec (models.ScheduleDelay m) 0) as [Hd|Hd]; cbn.
    + rewrite bool_decide_eq_false_2; [done|]. intros Hpos. specialize (Hpos Hs). lia.
    + rewrite bool_decide_eq_true_2; [done|]. intros _. lia.
  - rewrite bool_decide_eq_true_2; [done|]. done.
Qed.

Lemma check4_eqb m :
  core.check4 U cronParse m
  = negb (String.eqb (models.JobKind m) core.JobKindPeriodic
          && (utils.IsEmptyStr U (models.Cron m)
              || bool_decide (is_Some (cronParse (models.Cron m))))).
Proof.
  unfold core.check4.
  destruct (String.eqb_spec (models.JobKind m) core.JobKindPeriodic) as [Hp|Hp]; cbn.
  - destruct (utils.IsEmptyStr U (models.Cron m)); cbn.
    + rewrite bool_decide_eq_false_2; [done|]. intros Hok. by destruct (Hok Hp).
    + destruct (cronParse (models.Cron m)) as [msg|]; cbn.
      * rewrite bool_decide_eq_false_2; [done|]. intros Hok. by destruct (Hok Hp).
      * rewrite bool_decide_eq_true_2; [done|]. done.
  - rewrite bool_decide_eq_true_2; [done|]. done.
Qed.

(** [validJobReq] is the first four checks, in their order. *)
Lemma validJobReq_checks req :
  validJobReq req
  = match models.Job req with
    | None => Some core.ErrEmptyRequest
    | Some j =>
        if utils.IsEmptyStr U (models.Name j) then Some core.ErrNameMissing
        else
          match models.Metadata j with
          | None => Some core.ErrMetadataMissing
          | Some m =>
              if negb (core.check2 m)
              then Some (core.ErrKindNotSupported (models.JobKind m))
              else if negb (core.check3 m) then Some core.ErrScheduleDelay
              else if negb (core.check4 U cronParse m) then
                if utils.IsEmptyStr U (models.Cron m) then Some core.ErrCronMissing
                else
                  match cronParse (models.Cron m) with
                  | Some msg => Some (core.ErrCronInvalid msg)
                  | None => None
                  end
              else None
          end
    end.
Proof.
  unfold core.validJobReq.
  destruct (models.Job req) as [j|]; [|done].
  destruct (utils.IsEmptyStr U (models.Name j)); [done|].
  destruct (models.Metadata j) as [m|]; [|done].
  rewrite check2_eqb, check3_eqb, check4_eqb, !negb_involutive.
  destruct (_ && _ && _); [done|].
  destruct (_ && _); [done|].
  destruct (String.eqb (models.JobKind m) core.JobKindPeriodic); cbn; [|done].
  destruct (utils.IsEmptyStr U (models.Cron m)); cbn; [done|].
  by destruct (cronParse (models.Cron m)).
Qed.

(** [LaunchJob] never panics: the pointers it goes through after
    [validJobReq] are those [validJobReq] has found not to be nil. *)
Lemma LaunchJob_returns req c : returned (LaunchJob req c).1.
Proof.
  unfold core.LaunchJob.
  destruct (validJobReq req) eqn:Hvalid; [done|].
  unfold core.validJobReq in Hvalid.
  destruct (models.Job req) as [j|]; [|discriminate].
  destruct (utils.IsEmptyStr U (models.Name j)); [discriminate|].
  destruct (models.Metadata j) as [m|] eqn:Hm; [|discriminate].
  unfold core.bind, core.deref, core.call, core.ret. cbn.
  destruct (pool.IsKnownJob (models.Name j) (core.backendPool c)) as [[jobType|] p1];
    cbn; [|done].
  destruct (pool.ValidateJobParameters jobType (models.Parameters j) p1)
    as [[msg|] p2]; cbn; [done|].
  rewrite Hm.
  destruct (String.eqb (models.JobKind m) core.JobKindScheduled);
    [|destruct (String.eqb (models.JobKind m) core.JobKindPeriodic)]; cbn.
  all: match goal with
       | |- context [let '(_, _) := ?x in _] => destruct x as [[res [msg|]] p3]
       end; cbn; [done|].
  all: destruct (utils.IsEmptyStr U (models.StatusHook j)); cbn; [done|].
  all: by destruct (pool.RegisterHook _ _ p3) as [[hmsg|] p4].
Qed.

(** C1: [LaunchJob] runs the checks in the order of the spec and returns
    the error of the first one that fails, whatever the later ones would say:
    the job, its name and its metadata, the kind, the delay of a Scheduled
    job, the cron spec of a Periodic job (none of these reaches the pool),
    then the name with [IsKnownJob] and, only for a known name, the
    parameters with [ValidateJobParameters]. The calls of the pool made on a
    failure are given in full: no job is dispatched. A request that passes
    them all is dispatched right after the two checks of the pool. *)
Theorem LaunchJob_validation_order req c :
  match models.Job req with
  | None => LaunchJob req c = (Returns (models.zeroJobStats, Some core.ErrEmptyRequest), c)
  | Some j =>
      if utils.IsEmptyStr U (models.Name j)
      then LaunchJob req c = (Returns (models.zeroJobStats, Some core.ErrNameMissing), c)
      else
        match models.Metadata j with
        | None =>
            LaunchJob req c
            = (Returns (models.zeroJobStats, Some core.ErrMetadataMissing), c)
        | Some m =>
            if negb (core.check2 m) then
              LaunchJob req c
              = (Returns (models.zeroJobStats,
                          Some (core.ErrKindNotSupported (models.JobKind m))), c)
            else if negb (core.check3 m) then
              LaunchJob req c
              = (Returns (models.zeroJobStats, Some core.ErrScheduleDelay), c)
            else if negb (core.check4 U cronParse m) then
              exists err,
                LaunchJob req c = (Returns (models.zeroJobStats, Some err), c)
                /\ (err = core.ErrCronMissing \/ exists msg, err = core.ErrCronInvalid msg)
            else
              let '(known, p1) := pool.IsKnownJob (models.Name j) (core.backendPool c) in
              match known with
              | None =>
                  LaunchJob req c
                  = (Returns (models.zeroJobStats,
                              Some (core.ErrUnknownJob (models.Name j))),
                     {| core.backendPool := p1;
                        core.calls :=
                          core.calls c ++ [core.EvIsKnownJob (models.Name j) false] |})
              | Some jobType =>
                  let '(verr, p2) :=
                    pool.ValidateJobParameters jobType (models.Parameters j) p1 in
                  match verr with
                  | Some msg =>
                      LaunchJob req c
                      = (Returns (models.zeroJobStats, Some (core.ErrPool msg)),
                         {| core.backendPool := p2;
                            core.calls :=
                              core.calls c
                              ++ [core.EvIsKnownJob (models.Name j) true;
                                  core.EvValidateJobParameters (models.Parameters j)
                                    (Some msg)] |})
                  | None =>
                      exists out c' ev rest,
                        LaunchJob req c = (Returns out, c')
                        /\ core.isDispatch ev = true
                        /\ core.calls c'
                           = (core.calls c
                              ++ [core.EvIsKnownJob (models.Name j) true;
                                  core.EvValidateJobParameters (models.Parameters j) None;
                                  ev] ++ rest)%list
                  end
              end
        end
  end.
Proof.
  pose proof (validJobReq_checks req) as Hchecks.
  destruct (models.Job req) as [j|] eqn:Hj; [|by apply LaunchJob_invalid].
  destruct (utils.IsEmptyStr U (models.Name j)) eqn:Hname; [by apply LaunchJob_invalid|].
  destruct (models.Metadata j) as [m|] eqn:Hm; [|by apply LaunchJob_invalid].
  destruct (core.check2 m) eqn:H2; cbn in *; [|by apply LaunchJob_invalid].
  destruct (core.check3 m) eqn:H3; cbn in *; [|by apply LaunchJob_invalid].
  destruct (core.check4 U cronParse m) eqn:H4; cbn in *.
  - unfold core.LaunchJob. rewrite Hchecks, Hj.
    unfold core.bind, core.deref, core.call, core.ret. cbn.
    destruct (pool.IsKnownJob (models.Name j) (core.backendPool c)) as [[jobType|] p1];
      cbn; [|done].
    destruct (pool.ValidateJobParameters jobType (models.Parameters j) p1)
      as [[msg|] p2]; cbn; [by rewrite <- app_assoc|].
    rewrite Hm.
    destruct (String.eqb (models.JobKind m) core.JobKindScheduled);
      [|destruct (String.eqb (models.JobKind m) core.JobKindPeriodic)]; cbn.
    all: match goal with
         | |- context [let '(_, _) := ?x in _] => destruct x as [[res [msg|]] p3]
         end; cbn.
    all: try (destruct (utils.IsEmptyStr U (models.StatusHook j)); cbn;
              [|destruct (pool.RegisterHook _ _ p3) as [[hmsg|] p4]; cbn]).
    all: do 4 eexists; (split; [reflexivity|]);
      (split; [|cbn; rewrite <- !app_assoc; cbn; reflexivity]); reflexivity.
  - destruct (utils.IsEmptyStr U (models.Cron m)) eqn:Hcron.
    + exists core.ErrCronMissing. split; [by apply LaunchJob_invalid | by left].
    + destruct (cronParse (models.Cron m)) as [msg|] eqn:Hparse.
      * exists (core.ErrCronInvalid msg).
        split; [by apply LaunchJob_invalid | right; by exists msg].
      * exfalso. unfold core.check4 in H4. apply bool_decide_eq_false in H4.
        apply H4. intros _. by split.
Qed.

(** C6: a Scheduled request with a delay of 0 is turned down with the
    error of an invalid request and the controller is left as it was, so
    that no call of the pool is made; a Scheduled request that [LaunchJob]
    accepts has a delay above 0. *)
Theorem Scheduled_needs_delay req j m c :
  models.Job req = Some j ->
  models.Metadata j = Some m ->
  models.JobKind m = core.JobKindScheduled ->
  (models.ScheduleDelay m = 0%N ->
   exists err,
     core.isInvalidRequest err = true
     /\ LaunchJob req c = (Returns (models.zeroJobStats, Some err), c))
  /\ (forall res c', LaunchJob req c = (Returns (res, None), c') ->
      (0 < models.ScheduleDelay m)%N).
Proof.
  intros Hj Hm Hkind.
  assert (models.ScheduleDelay m = 0%N ->
          exists err,
            core.isInvalidRequest err = true /\ validJobReq req = Some err) as Hzero.
  { intros Hdelay. unfold core.validJobReq. rewrite Hj.
    destruct (utils.IsEmptyStr U (models.Name j));
      [by exists core.ErrNameMissing|].
    rewrite Hm, Hkind, Hdelay. cbn. by exists core.ErrScheduleDelay. }
  split.
  - intros Hdelay. destruct (Hzero Hdelay) as (err & Herr & Hinvalid).
    exists err. split; [done|]. by apply LaunchJob_invalid.
  - intros res c' Haccepted.
    destruct (N.eq_dec (models.ScheduleDelay m) 0%N) as [Hdelay|Hdelay]; [|lia].
    destruct (Hzero Hdelay) as (err & _ & Hinvalid).
    rewrite (LaunchJob_invalid _ _ c Hinvalid) in Haccepted. congruence.
Qed.

(** The calls [LaunchJob] makes come after those made before. *)
Lemma LaunchJob_calls req c :
  exists evs, core.calls (LaunchJob req c).2 = (core.calls c ++ evs)%list.
Proof.
  unfold core.LaunchJob.
  destruct (validJobReq req); [exists []; cbn; by rewrite app_nil_r|].
  unfold core.bind, core.deref, core.call, core.ret.
  destruct (models.Job req) as [j|]; [|exists []; cbn; by rewrite app_nil_r].
  destruct (pool.IsKnownJob (models.Name j) (core.backendPool c)) as [[jobType|] p1];
    cbn; [|by eexists].
  destruct (pool.ValidateJobParameters jobType (models.Parameters j) p1)
    as [[msg|] p2]; cbn; [rewrite <- app_assoc; by eexists|].
  destruct (models.Metadata j) as [m|]; [|rewrite <- app_assoc; by eexists].
  destruct (String.eqb (models.JobKind m) core.JobKindScheduled);
    [|destruct (String.eqb (models.JobKind m) core.JobKindPeriodic)]; cbn.
  all: match goal with
       | |- context [let '(_, _) := ?x in _] => destruct x as [[res [msg|]] p3]
       end; cbn.
  all: try (destruct (utils.IsEmptyStr U (models.StatusHook j)); cbn;
            [|destruct (pool.RegisterHook _ _ p3) as [[hmsg|] p4]; cbn]).
  all: rewrite <- !app_assoc; by eexists.
Qed.

(** C2: when the request has passed the checks, the pool has dispatched the
    job with success (the method of its kind answered the stats [res] and a
    nil error) and the request has a status hook, [LaunchJob] calls
    [RegisterHook] on the pool as the dispatch left it, for the id of [res]
    and the hook of the request, as its last call; it leaves the pool as
    [RegisterHook] left it and returns [res] with the hook status activated
    when [RegisterHook] answered nil and error when it answered an error, in
    both cases with a nil error. *)
Theorem LaunchJob_registers_hook req j m c jobType p1 p2 res p3 herr p4 :
  validJobReq req = None ->
  models.Job req = Some j ->
  models.Metadata j = Some m ->
  pool.IsKnownJob (models.Name j) (core.backendPool c) = (Some jobType, p1) ->
  pool.ValidateJobParameters jobType (models.Parameters j) p1 = (None, p2) ->
  (models.JobKind m = "Scheduled"%string
   /\ pool.Schedule (models.Name j) (models.Parameters j) (models.ScheduleDelay m)
        (models.IsUnique m) p2 = ((res, None), p3))
  \/ (models.JobKind m = "Periodic"%string
      /\ pool.PeriodicallyEnqueue (models.Name j) (models.Parameters j) (models.Cron m) p2
         = ((res, None), p3))
  \/ (models.JobKind m = "Generic"%string
      /\ pool.Enqueue (models.Name j) (models.Parameters j) (models.IsUnique m) p2
         = ((res, None), p3)) ->
  utils.IsEmptyStr U (models.StatusHook j) = false ->
  pool.RegisterHook (models.JobID (models.Stats res)) (models.StatusHook j) p3
  = (herr, p4) ->
  exists ev,
    LaunchJob req c
    = (Returns (models.setHookStatus
                  (if herr is Some _ then "error" else "activated")%string res,
                None),
       {| core.backendPool := p4;
          core.calls :=
            core.calls c
            ++ [core.EvIsKnownJob (models.Name j) true;
                core.EvValidateJobParameters (models.Parameters j) None;
                ev;
                core.EvRegisterHook (models.JobID (models.Stats res))
                  (models.StatusHook j) herr] |})
    /\ core.enqueued ev = Some res
    /\ models.HookStatus (models.Stats (models.setHookStatus
                        (if herr is Some _ then "error" else "activated")%string res))
       = (if herr is Some _ then "error" else "activated")%string.
Proof.
  intros Hvalid Hj Hm Hknown Hparams Hdispatch Hhook Hregister.
  unfold core.LaunchJob. rewrite Hvalid, Hj.
  unfold core.bind, core.deref, core.call, core.ret.
  rewrite Hknown. cbn. rewrite Hparams. cbn. rewrite Hm, Hhook.
  destruct Hdispatch as [[Hkind Hcall]|[[Hkind Hcall]|[Hkind Hcall]]];
    rewrite Hkind; cbn; rewrite Hcall; cbn; rewrite Hregister; cbn;
    rewrite <- !app_assoc; cbn.
  all: eexists; split; [destruct herr; reflexivity|]; split; [reflexivity|].
  all: by destruct herr.
Qed.

End ControllerFacts.

Lemma Scheduled_needs_delay_witness :
  exists err,
    core.isInvalidRequest err = true
    /\ core.LaunchJob (Pool := sample.demoPool) (sample.U ∅ [] []) sample.cronParse
         (sample.request "Scheduled" 0 "") {| core.backendPool := 0; core.calls := [] |}
       = (Returns (models.zeroJobStats, Some err),
          {| core.backendPool := 0; core.calls := [] |}).
Proof.
  eapply (proj1 (Scheduled_needs_delay (Pool := sample.demoPool) (sample.U ∅ [] []) sample.cronParse
                   (sample.request "Scheduled" 0 "") _ _
                   {| core.backendPool := 0; core.calls := [] |}
                   eq_refl eq_refl eq_refl)).
  reflexivity.
Defined.

Lemma LaunchJob_registers_hook_witness :
  exists ev,
    core.LaunchJob (Pool := sample.demoPool) (sample.U ∅ [] []) sample.cronParse
      (sample.request "Generic" 0 "ftp://hook")
      {| core.backendPool := 0; core.calls := [] |}
    = (Returns (models.setHookStatus "error" (sample.stats "job" "DEMO" "Generic" false),
                None),
       {| core.backendPool := 1;
          core.calls :=
            [core.EvIsKnownJob "DEMO" true;
             core.EvValidateJobParameters {["image" := models.VString "demo-x"]} None;
             ev;
             core.EvRegisterHook "job" "ftp://hook" (Some "no such hook")] |})
    /\ core.enqueued ev = Some (sample.stats "job" "DEMO" "Generic" false).
Proof.
  destruct (LaunchJob_registers_hook (Pool := sample.demoPool) (sample.U ∅ [] [])
              sample.cronParse (sample.request "Generic" 0 "ftp://hook")
              {| models.Name := "DEMO";
                 models.Parameters := {["image" := models.VString "demo-x"]};
                 models.Metadata :=
                   Some {| models.JobKind := "Generic"; models.ScheduleDelay := 0;
                           models.Cron := ""; models.IsUnique := false |};
                 models.StatusHook := "ftp://hook" |}
              {| models.JobKind := "Generic"; models.ScheduleDelay := 0;
                 models.Cron := ""; models.IsUnique := false |}
              {| core.backendPool := 0; core.calls := [] |}
              tt 0 0 (sample.stats "job" "DEMO" "Generic" false) 1
              (Some "no such hook"%string) 1) as (ev & Hrun & Henqueued & _).
  - vm_compute. reflexivity.
  - reflexivity.
  - reflexivity.
  - reflexivity.
  - vm_compute. reflexivity.
  - right. right. split; reflexivity.
  - vm_compute. reflexivity.
  - vm_compute. reflexivity.
  - exists ev. split; [exact Hrun|exact Henqueued].
Defined.

Section ConfigFacts.

Variable U : utils.Utils.
Variable L : config.Libs.
Implicit Types (c : config.Configuration) (e : config.EnvSettings)
  (y : config.YConfiguration).

Local Abbreviation settings := (config.readSettings U).

(** *** [loadEnvs], field by field *)

Lemma loadEnvs_protocol_field c :
  config.loadEnvs_protocol U c
  = config.setProtocol (config.assignField (config.eProtocol settings) (config.Protocol c)) c.
Proof.
  unfold config.loadEnvs_protocol. cbn. unfold config.readSetting.
  destruct c. by destruct (utils.IsEmptyStr U _).
Qed.

Lemma loadEnvs_port_field c :
  config.loadEnvs_port U c
  = config.setPort (config.assignField (config.ePort settings) (config.Port c)) c.
Proof.
  unfold config.loadEnvs_port. cbn. unfold config.readNumber, config.readSetting.
  destruct c. destruct (utils.IsEmptyStr U _); [done|]. cbn.
  by destruct (Go.Atoi _).
Qed.

Lemma loadEnvs_https_field c :
  config.loadEnvs_https U c
  = config.setHTTPSConfig
      (config.envHTTPSConfig settings (config.Protocol c) (config.HTTPSConfig c)) c.
Proof.
  unfold config.loadEnvs_https, config.envHTTPSConfig. cbn. unfold config.readSetting.
  destruct c as [prot port h p l]. cbn.
  destruct (String.eqb prot config.JobServiceProtocolHTTPS); [|done].
  destruct (utils.IsEmptyStr U (utils.ReadEnv U config.jobServiceHTTPCert));
    destruct (utils.IsEmptyStr U (utils.ReadEnv U config.jobServiceHTTPKey));
    by destruct h.
Qed.

Lemma loadEnvs_backend_field c :
  config.loadEnvs_backend U c
  = config.setPoolConfig
      (config.assignFieldIn config.zeroPoolConfig config.setBackend
         (config.eBackend settings) (config.PoolConfig c)) c.
Proof.
  unfold config.loadEnvs_backend. cbn. unfold config.readSetting.
  destruct c. by destruct (utils.IsEmptyStr U _).
Qed.

Lemma loadEnvs_workers_field c :
  config.loadEnvs_workers U c
  = config.setPoolConfig
      (config.assignFieldIn config.zeroPoolConfig config.setWorkerCount
         (config.eWorkerCount settings) (config.PoolConfig c)) c.
Proof.
  unfold config.loadEnvs_workers. cbn. unfold config.readNumber, config.readSetting.
  destruct c. destruct (utils.IsEmptyStr U _); [done|]. cbn.
  by destruct (Go.Atoi _).
Qed.

Lemma loadEnvs_redis_field c :
  config.loadEnvs_redis U c
  = config.setPoolConfig (config.envRedisPoolCfg settings (config.PoolConfig c)) c.
Proof.
  unfold config.loadEnvs_redis, config.envRedisPoolCfg. cbn. unfold config.readSetting.
  destruct c as [prot port h [[w b r]|] l]; cbn; [|done].
  destruct (String.eqb b config.JobServicePoolBackendRedis); [|done].
  destruct (utils.IsEmptyStr U (utils.ReadEnv U config.jobServiceRedisURL));
    destruct (utils.IsEmptyStr U (utils.ReadEnv U config.jobServiceRedisNamespace));
    by destruct r.
Qed.

Lemma loadEnvs_logger_field c :
  config.loadEnvs_logger U c
  = config.setLoggerConfig (config.envLoggerConfig settings (config.LoggerConfig c)) c.
Proof.
  unfold config.loadEnvs_logger, config.envLoggerConfig. cbn.
  unfold config.readNumber, config.readSetting.
  destruct c as [prot port h p l]. cbn.
  destruct (utils.IsEmptyStr U (utils.ReadEnv U config.jobServiceLoggerBasePath));
    destruct (utils.IsEmptyStr U (utils.ReadEnv U config.jobServiceLoggerLevel));
    destruct (utils.IsEmptyStr U (utils.ReadEnv U config.jobServiceLoggerArchivePeriod));
    cbn; try destruct (Go.Atoi _); by destruct l.
Qed.

(** [loadEnvs] assigns the settings the environment gives. *)
Lemma loadEnvs_fields c : config.loadEnvs U c = config.applySettings settings c.
Proof.
  unfold config.loadEnvs. cbv zeta.
  rewrite loadEnvs_logger_field, loadEnvs_redis_field, loadEnvs_workers_field,
    loadEnvs_backend_field, loadEnvs_https_field, loadEnvs_port_field,
    loadEnvs_protocol_field.
  by destruct c.
Qed.

(** No setting, no change. *)
Lemma applySettings_none c : config.applySettings config.noSettings c = c.
Proof.
  destruct c as [prot port h p l]. unfold config.applySettings. cbn.
  unfold config.envHTTPSConfig, config.envPoolConfig, config.envRedisPoolCfg. cbn.
  destruct (String.eqb prot config.JobServiceProtocolHTTPS), p as [[w b r]|];
    cbn; try done.
  all: by destruct (String.eqb b config.JobServicePoolBackendRedis).
Qed.

Lemma decodeConfiguration_empty c : config.decodeConfiguration config.emptyDocument c = c.
Proof. by destruct c. Qed.

(** *** The translation of the redis URL *)

Lemma translateRedisURL_map c :
  config.translateRedisURL U L c = config.mapRedisURL (config.translated U L) c.
Proof.
  destruct c as [prot port h [[w b [[url ns]|]]|] l]; try done.
  unfold config.translateRedisURL, config.mapRedisURL, config.translated. cbn.
  destruct (utils.IsEmptyStr U url); cbn; [done|].
  destruct (config.urlParse L url); cbn.
  - by destruct (utils.TranslateRedisAddress U url) as [t []].
  - unfold Go.HasPrefix. by destruct (String.prefix config.redisSchema url).
Qed.


(** *** What a valid configuration says of the redis pool *)

(** A configuration is valid only with the redis backend and a redis URL
    that is not empty, has the schema and parses. *)
Lemma validate_redis c :
  config.validate U L c = None ->
  exists p r,
    config.PoolConfig c = Some p
    /\ config.Backend p = config.JobServicePoolBackendRedis
    /\ config.RedisPoolCfg p = Some r
    /\ utils.IsEmptyStr U (config.RedisURL r) = false
    /\ Go.HasPrefix (config.RedisURL r) config.redisSchema = true
    /\ config.urlParse L (config.RedisURL r) = None.
Proof.
  unfold config.validate. intros Hvalid.
  destruct (_ && _); [discriminate|].
  destruct (negb (utils.IsValidPort U (config.Port c))); [discriminate|].
  match type of Hvalid with
  | match ?o with _ => _ end = None => destruct o; [discriminate|]
  end.
  destruct (config.PoolConfig c) as [p|] eqn:Hp; [|discriminate].
  destruct (String.eqb_spec (config.Backend p) config.JobServicePoolBackendRedis)
    as [Hbackend|]; [|discriminate]. cbn in Hvalid.
  destruct (config.RedisPoolCfg p) as [r|] eqn:Hr; [|discriminate].
  destruct (utils.IsEmptyStr U (config.RedisURL r)) eqn:Hempty; [discriminate|].
  destruct (Go.HasPrefix (config.RedisURL r) config.redisSchema) eqn:Hprefix;
    [|discriminate]. cbn in Hvalid.
  destruct (config.urlParse L (config.RedisURL r)) eqn:Hparse; [discriminate|].
  by exists p, r.
Qed.

(** [Load] leaves a valid redis URL as it is. *)
Lemma validate_translated c u :
  config.validate U L c = None -> config.redisURL c = Some u ->
  config.translated U L u = u.
Proof.
  intros Hvalid Hurl.
  destruct (validate_redis c Hvalid) as (p & r & Hp & _ & Hr & Hempty & Hprefix & Hparse).
  unfold config.redisURL, config.poolRedisURL in Hurl.
  rewrite Hp, Hr in Hurl. injection Hurl as <-.
  unfold config.translated. by rewrite Hempty, Hparse, Hprefix.
Qed.

(** *** [Load] as a whole *)

(** What the file and the environment give to [Load]. *)
Lemma Load_succeeds yamlFilePath detectEnv c0 c1 :
  config.Load U L yamlFilePath detectEnv c0 = (c1, None) ->
  exists y e,
    forall c,
      config.Load U L yamlFilePath detectEnv c
      = (config.mapRedisURL (config.translated U L)
           (config.applySettings e (config.decodeConfiguration y c)),
         config.validate U L
           (config.mapRedisURL (config.translated U L)
              (config.applySettings e (config.decodeConfiguration y c)))).
Proof.
  unfold config.Load. intros Hload.
  exists (if utils.IsEmptyStr U yamlFilePath then config.emptyDocument
          else match config.ReadFile L yamlFilePath with
               | inl data => (config.yamlUnmarshal L data).1
               | inr _ => config.emptyDocument
               end),
         (if detectEnv then settings else config.noSettings).
  intros c.
  destruct (utils.IsEmptyStr U yamlFilePath); cbn in *.
  - rewrite decodeConfiguration_empty.
    destruct detectEnv; [rewrite loadEnvs_fields | rewrite applySettings_none];
      by rewrite translateRedisURL_map.
  - destruct (config.ReadFile L yamlFilePath) as [data|msg]; [|discriminate].
    destruct (config.yamlUnmarshal L data) as [y [msg|]]; [discriminate|]. cbn.
    destruct detectEnv; [rewrite loadEnvs_fields | rewrite applySettings_none];
      by rewrite translateRedisURL_map.
Qed.


(** *** Loading twice *)

Lemma assignField_twice {A : Type} (y e : option A) (x : A) :
  config.assignField e (config.assignField y (config.assignField e (config.assignField y x)))
  = config.assignField e (config.assignField y x).
Proof. by destruct e, y. Qed.

(** Decoding the same document and applying the same settings a second
    time changes nothing: pointer by pointer, *)
Lemma HTTPSConfig_twice e (protocol : string) (y : config.YPtr _ _)
    (h : option config.HTTPSConfigT) :
  let load h :=
    config.envHTTPSConfig e protocol
      (config.decodePtr config.zeroHTTPSConfig config.decodeHTTPSConfig y h) in
  load (load h) = load h.
Proof.
  cbn. unfold config.envHTTPSConfig.
  destruct (String.eqb protocol config.JobServiceProtocolHTTPS);
    destruct y as [|[[]|]|[[] []]], (config.eCert e), (config.eKey e), h as [[]|];
    reflexivity.
Qed.

Lemma LoggerConfig_twice e (y : config.YPtr _ _) (l : option config.LoggerConfigT) :
  let load l :=
    config.envLoggerConfig e
      (config.decodePtr config.zeroLoggerConfig config.decodeLoggerConfig y l) in
  load (load l) = load l.
Proof.
  cbn. unfold config.envLoggerConfig.
  destruct y as [|[[]|]|[[] [] []]], (config.eBasePath e), (config.eLogLevel e),
    (config.eArchivePeriod e), l as [[]|]; reflexivity.
Qed.

(** for the worker pool, when the redis URL the first time gave is left as
    it is by the translation [f], *)
Lemma PoolConfig_twice (f : string -> string) e (y : config.YPtr _ _)
    (p : option config.PoolConfigT) :
  let load p :=
    config.mapPoolRedisURL f
      (config.envPoolConfig e
         (config.decodePtr config.zeroPoolConfig config.decodePoolConfig y p)) in
  (forall u, config.poolRedisURL (load p) = Some u -> f u = u) ->
  load (load p) = load p.
Proof.
  cbn. unfold config.envPoolConfig, config.envRedisPoolCfg.
  destruct e as [? ? ? ? eb ew eu en ? ? ?]. cbn.
  intros Hurl.
  destruct y as [|[[w b [[u n]|]]|]|[[yw|] [yb|] [|[[u n]|]|[[yu|] [yn|]]]]],
           p as [[w0 b0 [[u0 n0]|]]|]; cbn in *.
  all: destruct eb, ew; cbn in *.
  all: repeat match goal with
         | |- context [String.eqb ?x config.JobServicePoolBackendRedis] =>
             let Heq := fresh "Heq" in
             destruct (String.eqb x config.JobServicePoolBackendRedis) eqn:Heq;
             cbn in *; rewrite ?Heq in *; cbn in *
         end.
  all: try reflexivity.
  all: destruct eu, en; unfold config.setRedisURL, config.setNamespace in *; cbn in *;
    try reflexivity.
  all: try congruence.
  all: rewrite (Hurl _ eq_refl); reflexivity.
Qed.

(** and for the configuration as a whole. *)
Lemma pipeline_twice (f : string -> string) y e c0 :
  let load c :=
    config.mapRedisURL f (config.applySettings e (config.decodeConfiguration y c)) in
  (forall u, config.redisURL (load c0) = Some u -> f u = u) ->
  load (load c0) = load c0.
Proof.
  cbn. intros Hurl. destruct c0 as [prot port h p l].
  unfold config.mapRedisURL, config.applySettings, config.decodeConfiguration.
  cbn [config.Protocol config.Port config.HTTPSConfig config.PoolConfig
       config.LoggerConfig].
  f_equal.
  - apply assignField_twice.
  - apply assignField_twice.
  - rewrite assignField_twice. apply HTTPSConfig_twice.
  - apply PoolConfig_twice. exact Hurl.
  - apply LoggerConfig_twice.
Qed.

(** C8: a second [Load] of the same file in the same environment, on the
    struct the first one left, returns nil again and leaves every field as
    it is. *)
Theorem Load_idempotent yamlFilePath detectEnv c0 c1 :
  config.Load U L yamlFilePath detectEnv c0 = (c1, None) ->
  config.Load U L yamlFilePath detectEnv c1 = (c1, None).
Proof.
  intros Hload.
  destruct (Load_succeeds _ _ _ _ Hload) as (y & e & Hrun).
  rewrite Hrun in Hload. injection Hload as Hc1 Hvalid.
  rewrite Hc1 in Hvalid.
  assert (config.mapRedisURL (config.translated U L)
            (config.applySettings e (config.decodeConfiguration y c1)) = c1) as Hsame.
  { rewrite <- Hc1 at 1 2. apply pipeline_twice.
    intros u Hu. rewrite Hc1 in Hu. by eapply validate_translated. }
  by rewrite Hrun, Hsame, Hvalid.
Qed.

End ConfigFacts.


Lemma Load_idempotent_witness :
  config.Load (sample.U sample.env sample.files sample.dirs) sample.L
    "config.yml" true sample.loaded
  = (sample.loaded, None).
Proof.
  apply (Load_idempotent (sample.U sample.env sample.files sample.dirs) sample.L
           "config.yml" true config.zeroConfiguration sample.loaded).
  vm_compute. reflexivity.
Defined.

(** * More properties of the code *)

(** ** The configuration, once more *)

Section ValidateFacts.

Variable U : utils.Utils.
Variable L : config.Libs.
Implicit Types (c : config.Configuration).

(** [validate] returns nil exactly for the configurations with: the protocol
    http or https; a valid port; for https, a certificate and a key that are
    named and are files; a worker pool with the backend redis and a redis
    pool whose URL is not empty, has the schema and parses, and whose
    namespace is not empty; a logger whose path is a directory, whose level
    occurs in the list of levels and whose archive period is not 0. *)
Theorem validate_accepts_iff c :
  config.validate U L c = None
  <-> (config.Protocol c = "https"%string \/ config.Protocol c = "http"%string)
      /\ utils.IsValidPort U (config.Port c) = true
      /\ (config.Protocol c = "https"%string ->
          exists h,
            config.HTTPSConfig c = Some h
            /\ utils.IsEmptyStr U (config.Cert h) = false
            /\ utils.FileExists U (config.Cert h) = true
            /\ utils.IsEmptyStr U (config.Key h) = false
            /\ utils.FileExists U (config.Key h) = true)
      /\ (exists p r,
            config.PoolConfig c = Some p
            /\ config.Backend p = "redis"%string
            /\ config.RedisPoolCfg p = Some r
            /\ utils.IsEmptyStr U (config.RedisURL r) = false
            /\ Go.HasPrefix (config.RedisURL r) "redis://" = true
            /\ config.urlParse L (config.RedisURL r) = None
            /\ utils.IsEmptyStr U (config.Namespace r) = false)
      /\ (exists l,
            config.LoggerConfig c = Some l
            /\ utils.DirExists U (config.BasePath l) = true
            /\ Go.Contains "DEBUG,INFO,WARNING,ERROR,FATAL" (config.LogLevel l) = true
            /\ config.ArchivePeriod l <> 0%Z).
Proof.
  unfold config.validate.
  change config.JobServiceProtocolHTTPS with "https"%string.
  change config.JobServiceProtocolHTTP with "http"%string.
  change config.JobServicePoolBackendRedis with "redis"%string.
  change config.redisSchema with "redis://"%string.
  change config.validLevels with "DEBUG,INFO,WARNING,ERROR,FATAL"%string.
  split.
  - intros Hvalid.
    destruct (String.eqb_spec (config.Protocol c) "https") as [Hs|Hs];
      destruct (String.eqb_spec (config.Protocol c) "http") as [Hp|Hp];
      cbn [negb andb orb] in Hvalid; try discriminate.
    all: destruct (utils.IsValidPort U (config.Port c)) eqn:Hport; [|discriminate].
    all: cbn [negb andb orb] in Hvalid.
    all: try (destruct (config.HTTPSConfig c) as [h|] eqn:Hh; [|discriminate];
              destruct (utils.IsEmptyStr U (config.Cert h)) eqn:Hc1; [discriminate|];
              destruct (utils.FileExists U (config.Cert h)) eqn:Hc2; [|discriminate];
              destruct (utils.IsEmptyStr U (config.Key h)) eqn:Hk1; [discriminate|];
              destruct (utils.FileExists U (config.Key h)) eqn:Hk2; [|discriminate];
              cbn [negb andb orb] in Hvalid).
    all: destruct (config.PoolConfig c) as [p|] eqn:Hpool; [|discriminate].
    all: destruct (String.eqb_spec (config.Backend p) "redis") as [Hb|Hb];
      [|discriminate]; cbn [negb andb orb] in Hvalid.
    all: destruct (config.RedisPoolCfg p) as [r|] eqn:Hr; [|discriminate].
    all: destruct (utils.IsEmptyStr U (config.RedisURL r)) eqn:Hu1; [discriminate|].
    all: destruct (Go.HasPrefix (config.RedisURL r) "redis://") eqn:Hu2; [|discriminate].
    all: cbn [negb andb orb] in Hvalid.
    all: destruct (config.urlParse L (config.RedisURL r)) eqn:Hu3; [discriminate|].
    all: destruct (utils.IsEmptyStr U (config.Namespace r)) eqn:Hn; [discriminate|].
    all: destruct (config.LoggerConfig c) as [l|] eqn:Hl; [|discriminate].
    all: destruct (utils.DirExists U (config.BasePath l)) eqn:Hd; [|discriminate].
    all: cbn [negb andb orb] in Hvalid.
    all: destruct (Go.Contains _ (config.LogLevel l)) eqn:Hlevel; [|discriminate].
    all: cbn [negb andb orb] in Hvalid.
    all: destruct (Z.eqb_spec (config.ArchivePeriod l) 0) as [Ha|Ha]; [discriminate|].
    all: repeat split; eauto 10; try congruence.
    all: try (intros _; exists h; by repeat split).
  - intros (Hprot & Hport & Hhttps & (p & r & Hp & Hb & Hr & Hu1 & Hu2 & Hu3 & Hn)
            & (l & Hl & Hd & Hlevel & Ha)).
    rewrite Hport, Hp, Hb, Hr, Hu1, Hu2, Hu3, Hn, Hl, Hd, Hlevel. cbn [negb andb orb].
    destruct (Z.eqb_spec (config.ArchivePeriod l) 0) as [|_]; [done|].
    destruct Hprot as [Hs|Hs]; rewrite Hs; [|reflexivity].
    destruct (Hhttps Hs) as (h & Hh & Hc1 & Hc2 & Hk1 & Hk2).
    by rewrite Hh, Hc1, Hc2, Hk1, Hk2.
Qed.

End ValidateFacts.

Section LoadEnvsFacts.

Variable U : utils.Utils.
Variable L : config.Libs.
Implicit Types (c : config.Configuration).

(** [validate] never looks at the number of workers, whatever it is, nor,
    when the protocol is http, at the HTTPS configuration. *)
Theorem validate_ignores c (w : Z) (h : option config.HTTPSConfigT) :
  config.validate U L
    (config.setPoolConfig (config.assignAt (config.setWorkerCount w) (config.PoolConfig c)) c)
  = config.validate U L c
  /\ (config.Protocol c = "http"%string ->
      config.validate U L (config.setHTTPSConfig h c) = config.validate U L c).
Proof.
  split.
  - destruct c as [prot port hc [[w0 b r]|] l]; reflexivity.
  - intros Hprot. destruct c as [prot port hc p l]. cbn in Hprot. subst prot.
    reflexivity.
Qed.

(** What a variable of the environment gives. *)
Lemma readSetting_nonempty (key : string) :
  utils.IsEmptyStr U (utils.ReadEnv U key) = false ->
  config.readSetting U key = Some (utils.ReadEnv U key).
Proof. intros Hkey. unfold config.readSetting. by rewrite Hkey. Qed.

Lemma readSetting_empty (key : string) :
  utils.IsEmptyStr U (utils.ReadEnv U key) = true -> config.readSetting U key = None.
Proof. intros Hkey. unfold config.readSetting. by rewrite Hkey. Qed.

(** With nothing but empty variables in the environment [loadEnvs] leaves
    the configuration as it is. *)
Theorem loadEnvs_no_env c :
  (forall key, utils.IsEmptyStr U (utils.ReadEnv U key) = true) ->
  config.loadEnvs U c = c.
Proof.
  intros Hempty. rewrite loadEnvs_fields.
  assert (config.readSettings U = config.noSettings) as ->.
  { unfold config.readSettings, config.readNumber.
    by rewrite !readSetting_empty by apply Hempty. }
  apply applySettings_none.
Qed.

(** [loadEnvs] a second time changes nothing. *)
Theorem loadEnvs_idempotent c :
  config.loadEnvs U (config.loadEnvs U c) = config.loadEnvs U c.
Proof.
  rewrite !loadEnvs_fields.
  pose proof (pipeline_twice (fun u => u) config.emptyDocument (config.readSettings U) c)
    as Htwice.
  cbv beta zeta in Htwice. rewrite !decodeConfiguration_empty in Htwice.
  assert (forall c', config.mapRedisURL (fun u => u) c' = c') as Hid.
  { by intros [prot port h [[w b [[u n]|]]|] l]. }
  rewrite !Hid in Htwice. by apply Htwice.
Qed.

(** The settings of the environment are in the configuration after they
    are applied. *)
Lemma envPoolConfig_backend (e : config.EnvSettings) (p : option config.PoolConfigT) b :
  config.eBackend e = Some b ->
  exists p', config.envPoolConfig e p = Some p' /\ config.Backend p' = b.
Proof.
  destruct e as [? ? ? ? eb ew eu en ? ? ?]. cbn. intros ->.
  unfold config.envPoolConfig, config.envRedisPoolCfg. cbn.
  destruct p as [[w0 b0 r0]|], ew; cbn.
  all: destruct (String.eqb b config.JobServicePoolBackendRedis); by eexists.
Qed.

Lemma envLoggerConfig_path (e : config.EnvSettings) (l : option config.LoggerConfigT) v :
  config.eBasePath e = Some v ->
  exists l', config.envLoggerConfig e l = Some l' /\ config.BasePath l' = v.
Proof.
  destruct e as [? ? ? ? ? ? ? ? ep el ea]. cbn. intros ->.
  unfold config.envLoggerConfig. cbn.
  destruct l as [[pa le ar]|], el, ea; cbn; by eexists.
Qed.

Lemma envLoggerConfig_level (e : config.EnvSettings) (l : option config.LoggerConfigT) v :
  config.eLogLevel e = Some v ->
  exists l', config.envLoggerConfig e l = Some l' /\ config.LogLevel l' = v.
Proof.
  destruct e as [? ? ? ? ? ? ? ? ep el ea]. cbn. intros ->.
  unfold config.envLoggerConfig. cbn.
  destruct l as [[pa le ar]|], ep, ea; cbn; by eexists.
Qed.

(** A variable of the environment that is not empty overrides the protocol,
    the backend, the path of the logs and the level, whatever the
    configuration held. *)
Theorem loadEnvs_overrides c :
  (utils.IsEmptyStr U (utils.ReadEnv U "JOB_SERVICE_PROTOCOL") = false ->
   config.Protocol (config.loadEnvs U c) = utils.ReadEnv U "JOB_SERVICE_PROTOCOL")
  /\ (utils.IsEmptyStr U (utils.ReadEnv U "JOB_SERVICE_POOL_BACKEND") = false ->
      exists p,
        config.PoolConfig (config.loadEnvs U c) = Some p
        /\ config.Backend p = utils.ReadEnv U "JOB_SERVICE_POOL_BACKEND")
  /\ (utils.IsEmptyStr U (utils.ReadEnv U "JOB_SERVICE_LOGGER_BASE_PATH") = false ->
      exists l,
        config.LoggerConfig (config.loadEnvs U c) = Some l
        /\ config.BasePath l = utils.ReadEnv U "JOB_SERVICE_LOGGER_BASE_PATH")
  /\ (utils.IsEmptyStr U (utils.ReadEnv U "JOB_SERVICE_LOGGER_LEVEL") = false ->
      exists l,
        config.LoggerConfig (config.loadEnvs U c) = Some l
        /\ config.LogLevel l = utils.ReadEnv U "JOB_SERVICE_LOGGER_LEVEL").
Proof.
  rewrite loadEnvs_fields. unfold config.applySettings.
  cbn [config.Protocol config.PoolConfig config.LoggerConfig].
  repeat split; intros Hkey.
  - cbn [config.readSettings config.eProtocol].
    rewrite (readSetting_nonempty config.jobServiceProtocol Hkey). reflexivity.
  - apply envPoolConfig_backend.
    apply (readSetting_nonempty config.jobServiceWorkerPoolBackend Hkey).
  - apply envLoggerConfig_path.
    apply (readSetting_nonempty config.jobServiceLoggerBasePath Hkey).
  - apply envLoggerConfig_level.
    apply (readSetting_nonempty config.jobServiceLoggerLevel Hkey).
Qed.

End LoadEnvsFacts.

Section LoadEnvsMore.

Variable U : utils.Utils.
Variable L : config.Libs.
Implicit Types (c : config.Configuration).

(** A number [strconv.Atoi] reads is an [int]. *)
Lemma Atoi_range (s : string) (n : Z) :
  Go.Atoi s = Some n -> (Go.intMin <= n <= Go.intMax)%Z.
Proof.
  unfold Go.Atoi.
  destruct (match s with
            | String "-" r => (true, r)
            | String "+" r => (false, r)
            | _ => (false, s)
            end) as [neg ds].
  destruct ds as [|d ds]; [discriminate|].
  destruct (Go.digits 0 (String d ds)) as [v|]; [|discriminate].
  destruct (_ && _) eqn:Hrange; [|discriminate].
  intros [= <-]. apply andb_true_iff in Hrange as [Hmin Hmax]. lia.
Qed.

(** The port in the environment: a value that is no number is passed over,
    and a number is converted to [uint], so that a negative port wraps
    around to a port far above 65535. *)
Theorem loadEnvs_port_number c :
  utils.IsEmptyStr U (utils.ReadEnv U "JOB_SERVICE_PORT") = false ->
  (Go.Atoi (utils.ReadEnv U "JOB_SERVICE_PORT") = None ->
   config.Port (config.loadEnvs U c) = config.Port c)
  /\ (forall n,
        Go.Atoi (utils.ReadEnv U "JOB_SERVICE_PORT") = Some n ->
        config.Port (config.loadEnvs U c) = (n mod 2 ^ 64)%Z
        /\ ((n < 0)%Z ->
            config.Port (config.loadEnvs U c) = (2 ^ 64 + n)%Z
            /\ (65535 < config.Port (config.loadEnvs U c))%Z)).
Proof.
  intros Hkey. rewrite loadEnvs_fields. unfold config.applySettings.
  cbn [config.Port config.readSettings config.ePort]. unfold config.readNumber.
  rewrite (readSetting_nonempty U config.jobServicePort Hkey).
  change config.jobServicePort with "JOB_SERVICE_PORT"%string.
  split.
  - by intros ->.
  - intros n Hn. rewrite Hn. cbn [config.assignField]. unfold Go.uint.
    split; [done|]. intros Hneg.
    apply Atoi_range in Hn. unfold Go.intMin, Go.intMax in Hn.
    assert ((n mod 2 ^ 64)%Z = (2 ^ 64 + n)%Z) as ->.
    { symmetry. apply Z.mod_unique with (q := (-1)%Z); lia. }
    split; [done|]. lia.
Qed.

(** The certificate and the key of the environment count for https only:
    with another protocol [loadEnvs] leaves the HTTPS configuration as it
    is, and with https a certificate in the environment is the certificate
    of the configuration. *)
Theorem loadEnvs_https_only c :
  (config.Protocol (config.loadEnvs U c) <> "https"%string ->
   config.HTTPSConfig (config.loadEnvs U c) = config.HTTPSConfig c)
  /\ (config.Protocol (config.loadEnvs U c) = "https"%string ->
      utils.IsEmptyStr U (utils.ReadEnv U "JOB_SERVICE_HTTPS_CERT") = false ->
      exists h,
        config.HTTPSConfig (config.loadEnvs U c) = Some h
        /\ config.Cert h = utils.ReadEnv U "JOB_SERVICE_HTTPS_CERT").
Proof.
  rewrite loadEnvs_fields. unfold config.applySettings.
  cbn [config.Protocol config.HTTPSConfig]. unfold config.envHTTPSConfig.
  change config.JobServiceProtocolHTTPS with "https"%string.
  split.
  - intros Hprot. by destruct (String.eqb_spec
      (config.assignField (config.eProtocol (config.readSettings U)) (config.Protocol c))
      "https").
  - intros -> Hkey. cbn [String.eqb Ascii.eqb Bool.eqb].
    cbn [config.readSettings config.eCert config.eKey].
    rewrite (readSetting_nonempty U config.jobServiceHTTPCert Hkey).
    change config.jobServiceHTTPCert with "JOB_SERVICE_HTTPS_CERT"%string.
    destruct (config.HTTPSConfig c) as [[ce ke]|], (config.readSetting U _);
      cbn; by eexists.
Qed.

(** The redis pool of the environment counts for the backend redis only:
    with another backend, or without a worker pool, [loadEnvs] leaves the
    redis pool as it is, and with the backend redis a URL in the environment
    is the URL of the configuration. *)
Theorem loadEnvs_redis_only c :
  ((forall p, config.PoolConfig (config.loadEnvs U c) = Some p ->
              config.Backend p <> "redis"%string) ->
   config.PoolConfig (config.loadEnvs U c) ≫= config.RedisPoolCfg
   = config.PoolConfig c ≫= config.RedisPoolCfg)
  /\ (forall p, config.PoolConfig (config.loadEnvs U c) = Some p ->
      config.Backend p = "redis"%string ->
      utils.IsEmptyStr U (utils.ReadEnv U "JOB_SERVICE_POOL_REDIS_URL") = false ->
      config.redisURL (config.loadEnvs U c)
      = Some (utils.ReadEnv U "JOB_SERVICE_POOL_REDIS_URL")).
Proof.
  rewrite loadEnvs_fields. unfold config.applySettings, config.redisURL.
  cbn [config.PoolConfig].
  unfold config.envPoolConfig, config.envRedisPoolCfg.
  change config.JobServicePoolBackendRedis with "redis"%string.
  destruct (config.readSettings U) as [? ? ? ? eb ew eu en ? ? ?] eqn:Hsettings.
  assert (utils.IsEmptyStr U (utils.ReadEnv U "JOB_SERVICE_POOL_REDIS_URL") = false ->
          eu = Some (utils.ReadEnv U "JOB_SERVICE_POOL_REDIS_URL")) as Hurl.
  { intros Hkey. apply (f_equal config.eRedisURL) in Hsettings. cbn in Hsettings.
    rewrite <- Hsettings. apply (readSetting_nonempty U config.jobServiceRedisURL Hkey). }
  clear Hsettings. cbn [config.eBackend config.eWorkerCount config.eRedisURL
                        config.eNamespace].
  split.
  - intros Hother.
    destruct (config.PoolConfig c) as [[w0 b0 r0]|], eb, ew; cbn in *.
    all: repeat match goal with
           | H : context [String.eqb ?x "redis"] |- _ =>
               destruct (String.eqb_spec x "redis")
           end; try reflexivity.
    all: by edestruct Hother.
  - intros p Hp Hb Hkey. rewrite (Hurl Hkey) in *. clear Hurl.
    destruct (config.PoolConfig c) as [[w0 b0 r0]|], eb, ew; cbn in *.
    all: repeat match goal with
           | H : context [String.eqb ?x "redis"] |- _ =>
               destruct (String.eqb_spec x "redis")
           end; try discriminate.
    all: try (injection Hp as <-; cbn in *; congruence).
    all: try destruct r0 as [[u0 n0]|]; destruct en; reflexivity.
Qed.

End LoadEnvsMore.

Section LoadFacts.

Variable U : utils.Utils.
Variable L : config.Libs.
Implicit Types (c : config.Configuration).

(** The translation of the redis URL touches nothing but the redis URL, and
    not even that when there is none, when it is empty, when it parses and
    has the schema, or when it neither parses nor translates. *)
Theorem translateRedisURL_frame c :
  let c' := config.translateRedisURL U L c in
  config.Protocol c' = config.Protocol c
  /\ config.Port c' = config.Port c
  /\ config.HTTPSConfig c' = config.HTTPSConfig c
  /\ config.LoggerConfig c' = config.LoggerConfig c
  /\ config.WorkerCount <$> config.PoolConfig c' = config.WorkerCount <$> config.PoolConfig c
  /\ config.Backend <$> config.PoolConfig c' = config.Backend <$> config.PoolConfig c
  /\ config.Namespace <$> (config.PoolConfig c' ≫= config.RedisPoolCfg)
     = config.Namespace <$> (config.PoolConfig c ≫= config.RedisPoolCfg)
  /\ (match config.redisURL c with
      | None => True
      | Some u =>
          utils.IsEmptyStr U u = true
          \/ (config.urlParse L u = None /\ Go.HasPrefix u "redis://" = true)
          \/ (config.urlParse L u <> None /\ (utils.TranslateRedisAddress U u).2 = false)
      end -> c' = c).
Proof.
  cbn zeta. rewrite translateRedisURL_map.
  destruct c as [prot port h [[w b [[u n]|]]|] l]; cbn; repeat split; try done.
  unfold config.mapRedisURL, config.mapPoolRedisURL, config.setRedisURL, Go.HasPrefix.
  cbn.
  intros [Hempty|[[Hparse Hprefix]|[Hparse Htrans]]];
    unfold config.translated, Go.HasPrefix; change config.redisSchema with "redis://"%string.
  - by rewrite Hempty.
  - rewrite Hparse, Hprefix. by destruct (utils.IsEmptyStr U u).
  - destruct (utils.IsEmptyStr U u); [done|].
    destruct (config.urlParse L u); [|done].
    destruct (utils.TranslateRedisAddress U u) as [t ok]. cbn in Htrans. by subst ok.
Qed.

(** A file that can not be read, or that does not decode, ends [Load] with
    that error: the struct is as it was, or as the decoding left it, the
    environment is not applied and nothing is validated. *)
Theorem Load_file_errors (yamlFilePath : string) (detectEnv : bool) c :
  utils.IsEmptyStr U yamlFilePath = false ->
  (forall msg, config.ReadFile L yamlFilePath = inr msg ->
     config.Load U L yamlFilePath detectEnv c = (c, Some (config.ErrReadFile msg)))
  /\ (forall data y msg,
        config.ReadFile L yamlFilePath = inl data ->
        config.yamlUnmarshal L data = (y, Some msg) ->
        config.Load U L yamlFilePath detectEnv c
        = (config.decodeConfiguration y c, Some (config.ErrYaml msg))).
Proof.
  intros Hpath. unfold config.Load. rewrite Hpath. cbn [negb]. split.
  - by intros msg ->.
  - by intros data y msg -> ->.
Qed.

(** When the file is read and decoded, or there is none, [Load] is the
    decoding, the environment, the translation of the redis URL and the
    validation, in this order. *)
Lemma Load_runs (yamlFilePath : string) (detectEnv : bool) c :
  (forall msg, (config.Load U L yamlFilePath detectEnv c).2 <> Some (config.ErrReadFile msg)) ->
  (forall msg, (config.Load U L yamlFilePath detectEnv c).2 <> Some (config.ErrYaml msg)) ->
  exists y,
    (config.Load U L yamlFilePath detectEnv c).1
    = config.translateRedisURL U L
        ((if detectEnv then config.loadEnvs U else fun c => c)
           (config.decodeConfiguration y c)).
Proof.
  unfold config.Load. intros Hread Hyaml.
  destruct (utils.IsEmptyStr U yamlFilePath); cbn [negb] in *.
  - exists config.emptyDocument. rewrite decodeConfiguration_empty. by destruct detectEnv.
  - destruct (config.ReadFile L yamlFilePath) as [data|msg];
      [|by destruct (Hread msg)].
    destruct (config.yamlUnmarshal L data) as [y [msg|]]; [by destruct (Hyaml msg)|].
    exists y. by destruct detectEnv.
Qed.

(** The environment overrides the file: after a [Load] that looks at the
    environment and does not fail on the file, the protocol and the level of
    the logs are those of the environment when it sets them, whatever the
    file says. *)
Theorem Load_env_overrides_file (yamlFilePath : string) c :
  (forall msg, (config.Load U L yamlFilePath true c).2 <> Some (config.ErrReadFile msg)) ->
  (forall msg, (config.Load U L yamlFilePath true c).2 <> Some (config.ErrYaml msg)) ->
  (utils.IsEmptyStr U (utils.ReadEnv U "JOB_SERVICE_PROTOCOL") = false ->
   config.Protocol (config.Load U L yamlFilePath true c).1
   = utils.ReadEnv U "JOB_SERVICE_PROTOCOL")
  /\ (utils.IsEmptyStr U (utils.ReadEnv U "JOB_SERVICE_LOGGER_LEVEL") = false ->
      config.GetLogLevel (config.Load U L yamlFilePath true c).1
      = utils.ReadEnv U "JOB_SERVICE_LOGGER_LEVEL").
Proof.
  intros Hread Hyaml.
  destruct (Load_runs yamlFilePath true c Hread Hyaml) as [y ->].
  rewrite translateRedisURL_map, loadEnvs_fields.
  unfold config.GetLogLevel, config.mapRedisURL, config.applySettings.
  cbn [config.Protocol config.LoggerConfig]. split; intros Hkey.
  - cbn [config.readSettings config.eProtocol].
    by rewrite (readSetting_nonempty U config.jobServiceProtocol Hkey).
  - destruct (envLoggerConfig_level (config.readSettings U)
                (config.LoggerConfig (config.decodeConfiguration y c))
                (utils.ReadEnv U "JOB_SERVICE_LOGGER_LEVEL"))
      as (l & -> & Hlevel); [|exact Hlevel].
    apply (readSetting_nonempty U config.jobServiceLoggerLevel Hkey).
Qed.

(** Without [detectEnv], [Load] does not depend on the environment. *)
Theorem Load_ignores_env (yamlFilePath : string) c (env : string -> string) :
  config.Load
    {| utils.IsEmptyStr := utils.IsEmptyStr U;
       utils.IsValidPort := utils.IsValidPort U;
       utils.FileExists := utils.FileExists U;
       utils.DirExists := utils.DirExists U;
       utils.ReadEnv := env;
       utils.TranslateRedisAddress := utils.TranslateRedisAddress U |}
    L yamlFilePath false c
  = config.Load U L yamlFilePath false c.
Proof. reflexivity. Qed.

(** What a valid configuration says of the logger. *)
Lemma validate_logger c :
  config.validate U L c = None ->
  exists l,
    config.LoggerConfig c = Some l
    /\ utils.DirExists U (config.BasePath l) = true
    /\ Go.Contains "DEBUG,INFO,WARNING,ERROR,FATAL" (config.LogLevel l) = true
    /\ config.ArchivePeriod l <> 0%Z.
Proof.
  unfold config.validate. intros Hvalid.
  change config.validLevels with "DEBUG,INFO,WARNING,ERROR,FATAL"%string in Hvalid.
  destruct (negb _ && negb _); [discriminate|].
  destruct (negb (utils.IsValidPort U (config.Port c))); [discriminate|].
  destruct (if String.eqb (config.Protocol c) config.JobServiceProtocolHTTPS
            then _ else _); [discriminate|].
  destruct (config.PoolConfig c) as [p|]; [|discriminate].
  destruct (negb (String.eqb (config.Backend p) config.JobServicePoolBackendRedis));
    [discriminate|].
  destruct (if String.eqb (config.Backend p) config.JobServicePoolBackendRedis
            then _ else _); [discriminate|].
  destruct (config.LoggerConfig c) as [l|]; [|discriminate].
  destruct (utils.DirExists U (config.BasePath l)) eqn:Hdir; [|discriminate].
  cbn [negb] in Hvalid.
  destruct (Go.Contains _ (config.LogLevel l)) eqn:Hlevel; [|discriminate].
  cbn [negb] in Hvalid.
  destruct (Z.eqb_spec (config.ArchivePeriod l) 0) as [|Hperiod]; [discriminate|].
  by exists l.
Qed.

(** After a [Load] that returns nil the logger configuration is there, so
    that [GetLogBasePath], [GetLogLevel] and [GetLogArchivePeriod] give its
    path, its level and its period and not their defaults: the path is a
    directory, the level occurs in the list of levels and the period is not
    0. *)
Theorem Load_getters (yamlFilePath : string) (detectEnv : bool) c0 c :
  config.Load U L yamlFilePath detectEnv c0 = (c, None) ->
  exists l,
    config.LoggerConfig c = Some l
    /\ config.GetLogBasePath c = config.BasePath l
    /\ config.GetLogLevel c = config.LogLevel l
    /\ config.GetLogArchivePeriod c = config.ArchivePeriod l
    /\ utils.DirExists U (config.GetLogBasePath c) = true
    /\ Go.Contains "DEBUG,INFO,WARNING,ERROR,FATAL" (config.GetLogLevel c) = true
    /\ config.GetLogArchivePeriod c <> 0%Z.
Proof.
  intros Hload.
  assert (config.validate U L c = None) as Hvalid.
  { destruct (Load_succeeds _ _ _ _ _ _ Hload) as (y & e & Hrun).
    rewrite Hrun in Hload. by injection Hload as <- ->. }
  destruct (validate_logger _ Hvalid) as (l & Hl & Hdir & Hlevel & Hperiod).
  exists l.
  unfold config.GetLogBasePath, config.GetLogLevel, config.GetLogArchivePeriod.
  by rewrite Hl.
Qed.

End LoadFacts.

(** ** The authenticator, once more *)

Section AuthFacts.

Variable U : utils.Utils.

(** When the secret of the environment is empty, or not set, no request is
    let in. *)
Theorem DoAuth_empty_secret (req : option api.Request) :
  utils.IsEmptyStr U (config.GetUIAuthSecret U) = true ->
  api.DoAuth U req <> None.
Proof.
  intros Hsecret. destruct req as [r|]; [|done].
  unfold api.DoAuth.
  destruct (utils.IsEmptyStr U (Go.TrimSpace (api.Get (api.Header r) api.authHeader)))
    eqn:Hempty; [done|].
  destruct (String.eqb_spec (Go.TrimSpace (api.Get (api.Header r) api.authHeader))
              (config.GetUIAuthSecret U)) as [Hsame|]; [|done].
  rewrite Hsame in Hempty. congruence.
Qed.

(** [DoAuth] reads the first value of the header Authorization and nothing
    else of the request; without a value the header counts as missing. *)
Theorem DoAuth_first_value (h : gmap string (list string)) :
  (forall v vs,
     h !! "Authorization" = Some (v :: vs) ->
     api.DoAuth U (Some {| api.Header := h |})
     = api.DoAuth U (Some {| api.Header := {[ "Authorization" := [v] ]} |}))
  /\ (utils.IsEmptyStr U "" = true ->
      h !! "Authorization" = None \/ h !! "Authorization" = Some [] ->
      api.DoAuth U (Some {| api.Header := h |})
      = Some (api.ErrHeaderMissing "Authorization")).
Proof.
  unfold api.DoAuth, api.Get, api.authHeader. cbn [api.Header]. split.
  - intros v vs ->. by rewrite lookup_singleton_eq.
  - intros Hempty [-> | ->]; cbn; by rewrite Hempty.
Qed.

End AuthFacts.

Lemma DoAuth_empty_secret_witness :
  api.DoAuth (sample.U ∅ [] [])
    (Some {| api.Header := {[ "Authorization" := ["Harbor-Secret"] ]} |}) <> None.
Proof. apply DoAuth_empty_secret. vm_compute. reflexivity. Defined.

Lemma DoAuth_first_value_witness :
  api.DoAuth (sample.U {[ "CORE_SECRET" := "s3cr3t" ]} [] [])
    (Some {| api.Header :=
               {[ "Authorization" := ["s3cr3t"; "other"]; "Accept" := ["*/*"] ]} |})
  = api.DoAuth (sample.U {[ "CORE_SECRET" := "s3cr3t" ]} [] [])
      (Some {| api.Header := {[ "Authorization" := ["s3cr3t"] ]} |}).
Proof.
  apply (proj1 (DoAuth_first_value (sample.U {[ "CORE_SECRET" := "s3cr3t" ]} [] []) _)
           "s3cr3t" ["other"]).
  vm_compute. reflexivity.
Defined.

(** ** The controller, once more *)

Section ControllerMore.

Variable U : utils.Utils.
Variable cronParse : string -> option string.
Context {P JobType : Type} {Pool : pool.Interface P JobType}.
Implicit Types (req : models.JobRequest) (j : models.JobData) (m : models.JobMetadata)
  (c : core.Controller (P := P)).

Local Abbreviation validJobReq := (core.validJobReq U cronParse).
Local Abbreviation LaunchJob := (core.LaunchJob U cronParse).

(** [validJobReq] accepts exactly the requests with a job, a name that is
    not empty and metadata of kind Generic, of kind Scheduled with a delay
    that is not 0, or of kind Periodic with a cron spec that is not empty
    and parses. For a Generic job the delay and the cron spec are not looked
    at, nor is the delay of a Periodic job. *)
Theorem validJobReq_accepts_iff req :
  validJobReq req = None
  <-> exists j m,
        models.Job req = Some j
        /\ utils.IsEmptyStr U (models.Name j) = false
        /\ models.Metadata j = Some m
        /\ (models.JobKind m = "Generic"%string
            \/ (models.JobKind m = "Scheduled"%string /\ models.ScheduleDelay m <> 0%N)
            \/ (models.JobKind m = "Periodic"%string
                /\ utils.IsEmptyStr U (models.Cron m) = false
                /\ cronParse (models.Cron m) = None)).
Proof.
  unfold core.validJobReq.
  change core.JobKindGeneric with "Generic"%string.
  change core.JobKindScheduled with "Scheduled"%string.
  change core.JobKindPeriodic with "Periodic"%string.
  split.
  - destruct (models.Job req) as [j|]; [|discriminate].
    destruct (utils.IsEmptyStr U (models.Name j)) eqn:Hname; [discriminate|].
    destruct (models.Metadata j) as [m|] eqn:Hm; [|discriminate].
    intros Hvalid. exists j, m. repeat split; try done.
    destruct (String.eqb_spec (models.JobKind m) "Generic") as [Hg|Hg]; [by left|].
    destruct (String.eqb_spec (models.JobKind m) "Periodic") as [Hp|Hp];
      destruct (String.eqb_spec (models.JobKind m) "Scheduled") as [Hs|Hs];
      cbn [negb andb] in Hvalid; try discriminate; try congruence.
    + right. right. split; [done|].
      destruct (utils.IsEmptyStr U (models.Cron m)); [discriminate|].
      by destruct (cronParse (models.Cron m)).
    + right. left. split; [done|].
      destruct (N.eqb_spec (models.ScheduleDelay m) 0); [discriminate | done].
  - intros (j & m & -> & -> & -> & [Hk|[[Hk Hdelay]|(Hk & Hcron & Hparse)]]);
      rewrite Hk; cbn.
    + done.
    + by destruct (N.eqb_spec (models.ScheduleDelay m) 0).
    + by rewrite Hcron, Hparse.
Qed.

(** A request [validJobReq] accepts has one of the three kinds. *)
Lemma validJobReq_kind req j m :
  validJobReq req = None ->
  models.Job req = Some j ->
  models.Metadata j = Some m ->
  models.JobKind m = "Generic"%string \/ models.JobKind m = "Scheduled"%string
  \/ models.JobKind m = "Periodic"%string.
Proof.
  intros Hvalid Hj Hm. rewrite validJobReq_checks, Hj, Hm in Hvalid.
  destruct (utils.IsEmptyStr U (models.Name j)); [discriminate|].
  destruct (core.check2 m) eqn:Hkind; [|discriminate].
  unfold core.check2 in Hkind. apply bool_decide_eq_true in Hkind.
  rewrite !elem_of_cons, elem_of_nil in Hkind. tauto.
Qed.

(** The dispatch table: a request that has passed the checks is handed to
    the pool, as [ValidateJobParameters] left it, by the method of its kind:
    [Schedule] with its delay and its unique flag when it is Scheduled,
    [PeriodicallyEnqueue] with its cron spec (and no unique flag) when it is
    Periodic, [Enqueue] with its unique flag when it is Generic, each time
    under the name and with the parameters of the request. That call is the
    one dispatch; after it comes nothing, and the pool is left as the method
    left it, or one [RegisterHook] on the pool as the method left it. *)
Theorem LaunchJob_dispatch_table req j m c jobType p1 p2 :
  validJobReq req = None ->
  models.Job req = Some j ->
  models.Metadata j = Some m ->
  pool.IsKnownJob (models.Name j) (core.backendPool c) = (Some jobType, p1) ->
  pool.ValidateJobParameters jobType (models.Parameters j) p1 = (None, p2) ->
  exists res err p3 ev rest,
    ((models.JobKind m = "Scheduled"%string
      /\ pool.Schedule (models.Name j) (models.Parameters j) (models.ScheduleDelay m)
           (models.IsUnique m) p2 = ((res, err), p3)
      /\ ev = core.EvSchedule (models.Name j) (models.Parameters j)
                (models.ScheduleDelay m) (models.IsUnique m) res err)
     \/ (models.JobKind m = "Periodic"%string
         /\ pool.PeriodicallyEnqueue (models.Name j) (models.Parameters j)
              (models.Cron m) p2 = ((res, err), p3)
         /\ ev = core.EvPeriodicallyEnqueue (models.Name j) (models.Parameters j)
                   (models.Cron m) res err)
     \/ (models.JobKind m = "Generic"%string
         /\ pool.Enqueue (models.Name j) (models.Parameters j) (models.IsUnique m) p2
            = ((res, err), p3)
         /\ ev = core.EvEnqueue (models.Name j) (models.Parameters j)
                   (models.IsUnique m) res err))
    /\ core.calls (LaunchJob req c).2
       = (core.calls c
          ++ [core.EvIsKnownJob (models.Name j) true;
              core.EvValidateJobParameters (models.Parameters j) None;
              ev] ++ rest)%list
    /\ forallb (fun ev => negb (core.isDispatch ev)) rest = true
    /\ ((rest = [] /\ core.backendPool (LaunchJob req c).2 = p3)
        \/ exists herr,
             rest = [core.EvRegisterHook (models.JobID (models.Stats res))
                       (models.StatusHook j) herr]
             /\ pool.RegisterHook (models.JobID (models.Stats res))
                  (models.StatusHook j) p3
                = (herr, core.backendPool (LaunchJob req c).2)).
Proof.
  intros Hvalid Hj Hm Hknown Hparams.
  pose proof (validJobReq_kind req j m Hvalid Hj Hm) as Hkind.
  unfold core.LaunchJob. rewrite Hvalid, Hj.
  unfold core.bind, core.deref, core.call, core.ret.
  rewrite Hknown. cbn. rewrite Hparams. cbn. rewrite Hm.
  destruct Hkind as [Hkind|[Hkind|Hkind]]; rewrite Hkind; cbn.
  all: match goal with
       | |- context [let '(_, _) := ?x in _] =>
           destruct x as [[res err] p3] eqn:Hcall
       end; cbn.
  all: exists res, err, p3.
  all: destruct err as [msg|]; cbn;
    [|destruct (utils.IsEmptyStr U (models.StatusHook j)); cbn;
      [|destruct (pool.RegisterHook _ _ p3) as [[hmsg|] p4] eqn:Hregister; cbn]].
  all: rewrite <- ?app_assoc; cbn.
  all: eexists; eexists; split;
    [first [ by right; right | by left | by right; left ]|].
  all: split; [reflexivity|]; split; [reflexivity|].
  all: first [ by left | right; eexists; by split ].
Qed.

(** No hook without need: when the dispatch failed, or when the request has
    no status hook, [LaunchJob] returns what the method of the pool answered,
    the stats as they are and the error if there is one, and leaves the pool
    as that method left it: the dispatch is the last call of the pool and
    [RegisterHook] is not called. *)
Theorem LaunchJob_without_hook req j m c jobType p1 p2 res err p3 :
  validJobReq req = None ->
  models.Job req = Some j ->
  models.Metadata j = Some m ->
  pool.IsKnownJob (models.Name j) (core.backendPool c) = (Some jobType, p1) ->
  pool.ValidateJobParameters jobType (models.Parameters j) p1 = (None, p2) ->
  (models.JobKind m = "Scheduled"%string
   /\ pool.Schedule (models.Name j) (models.Parameters j) (models.ScheduleDelay m)
        (models.IsUnique m) p2 = ((res, err), p3))
  \/ (models.JobKind m = "Periodic"%string
      /\ pool.PeriodicallyEnqueue (models.Name j) (models.Parameters j) (models.Cron m) p2
         = ((res, err), p3))
  \/ (models.JobKind m = "Generic"%string
      /\ pool.Enqueue (models.Name j) (models.Parameters j) (models.IsUnique m) p2
         = ((res, err), p3)) ->
  err <> None \/ utils.IsEmptyStr U (models.StatusHook j) = true ->
  exists ev,
    LaunchJob req c
    = (Returns (res, match err with
                     | Some msg => Some (core.ErrPool msg)
                     | None => None
                     end),
       {| core.backendPool := p3;
          core.calls :=
            core.calls c
            ++ [core.EvIsKnownJob (models.Name j) true;
                core.EvValidateJobParameters (models.Parameters j) None;
                ev] |})
    /\ core.answered ev = Some (res, err)
    /\ core.isRegisterHook ev = false.
Proof.
  intros Hvalid Hj Hm Hknown Hparams Hdispatch Hwhy.
  unfold core.LaunchJob. rewrite Hvalid, Hj.
  unfold core.bind, core.deref, core.call, core.ret.
  rewrite Hknown. cbn. rewrite Hparams. cbn. rewrite Hm.
  destruct Hdispatch as [[Hkind Hcall]|[[Hkind Hcall]|[Hkind Hcall]]];
    rewrite Hkind; cbn; rewrite Hcall; cbn.
  all: destruct err as [msg|]; cbn;
    [|destruct Hwhy as [Herr|Hhook]; [done|rewrite Hhook; cbn]].
  all: rewrite <- ?app_assoc; cbn; by eexists.
Qed.

(** [LaunchJob] makes at most four calls of the pool, dispatches a job at
    most once, and leaves the pool as it is when it makes no call. *)
Theorem LaunchJob_call_bounds req c :
  exists evs,
    core.calls (LaunchJob req c).2 = (core.calls c ++ evs)%list
    /\ length evs <= 4
    /\ length (List.filter core.isDispatch evs) <= 1
    /\ (evs = [] -> (LaunchJob req c).2 = c).
Proof.
  unfold core.LaunchJob.
  destruct (validJobReq req);
    [exists []; cbn; rewrite app_nil_r; repeat split; lia|].
  unfold core.bind, core.deref, core.call, core.ret.
  destruct (models.Job req) as [j|];
    [|exists []; cbn; rewrite app_nil_r; repeat split; lia].
  destruct (pool.IsKnownJob (models.Name j) (core.backendPool c)) as [[jobType|] p1];
    cbn; [|eexists; repeat split; [cbn; lia..|discriminate]].
  destruct (pool.ValidateJobParameters jobType (models.Parameters j) p1)
    as [[msg|] p2]; cbn;
    [rewrite <- app_assoc; eexists; repeat split; [cbn; lia..|discriminate]|].
  destruct (models.Metadata j) as [m|];
    [|rewrite <- app_assoc; eexists; repeat split; [cbn; lia..|discriminate]].
  destruct (String.eqb (models.JobKind m) core.JobKindScheduled);
    [|destruct (String.eqb (models.JobKind m) core.JobKindPeriodic)]; cbn.
  all: match goal with
       | |- context [let '(_, _) := ?x in _] => destruct x as [[res [msg|]] p3]
       end; cbn.
  all: try (destruct (utils.IsEmptyStr U (models.StatusHook j)); cbn;
            [|destruct (pool.RegisterHook _ _ p3) as [[hmsg|] p4]; cbn]).
  all: rewrite <- !app_assoc; eexists; repeat split; [cbn; lia..|discriminate].
Qed.

End ControllerMore.

(** ** The operations on one job *)

Section JobFacts.

Variable U : utils.Utils.
Variable L : config.Libs.
Context {P : Type} {Ctl : pool.Control P}.

(** An empty job id never reaches the pool nor the file system: [GetJob],
    [StopJob], [CancelJob], [RetryJob] and [GetJobLogData] return the error
    of an empty id and the pool is as it was. *)
Theorem empty_job_id (jobID : string) (p : P) (DefaultConfig : config.Configuration) :
  utils.IsEmptyStr U jobID = true ->
  core.GetJob U jobID p = ((models.zeroJobStats, Some core.ErrEmptyJobID), p)
  /\ core.StopJob U jobID p = (Some core.ErrEmptyJobID, p)
  /\ core.CancelJob U jobID p = (Some core.ErrEmptyJobID, p)
  /\ core.RetryJob U jobID p = (Some core.ErrEmptyJobID, p)
  /\ core.GetJobLogData U L DefaultConfig jobID = inr core.ErrEmptyJobID.
Proof.
  intros Hempty.
  unfold core.GetJob, core.StopJob, core.CancelJob, core.RetryJob, core.GetJobLogData.
  by rewrite Hempty.
Qed.

(** [GetJobLogData] returns data exactly when the id is not empty and the
    file of the job under the base path of the logs exists and can be read:
    the data are those of that file. *)
Theorem GetJobLogData_data (DefaultConfig : config.Configuration) (jobID data : string) :
  core.GetJobLogData U L DefaultConfig jobID = inl data
  <-> utils.IsEmptyStr U jobID = false
      /\ utils.FileExists U
           (config.GetLogBasePath DefaultConfig ++ "/" ++ jobID ++ ".log")%string = true
      /\ config.ReadFile L
           (config.GetLogBasePath DefaultConfig ++ "/" ++ jobID ++ ".log")%string
         = inl data.
Proof.
  unfold core.GetJobLogData.
  destruct (utils.IsEmptyStr U jobID); [split; [discriminate | by intros [? _]]|].
  destruct (utils.FileExists U _); cbn [negb];
    [|split; [discriminate | by intros (_ & ? & _)]].
  destruct (config.ReadFile L _) as [logData|msg].
  - split; [by intros [= ->] | by intros (_ & _ & [= ->])].
  - split; [discriminate | by intros (_ & _ & ?)].
Qed.

End JobFacts.

(** ** The execution context, once more *)

Section ContextMore.

Context {Backend SysContext Logger : Type}.
Variable New : string -> string -> option Logger.
Variable DefaultConfig : config.Configuration.
Implicit Types (c ctx : impl.Context Backend SysContext Logger) (dep : impl.JobData Backend).

(** The path of the log of a job. *)
Local Abbreviation logPath dep :=
  (config.GetLogBasePath DefaultConfig ++ "/" ++ impl.ID dep ++ ".log")%string.

(** Every way [Build] can end. *)
Lemma Build_cases c dep :
  match New (logPath dep) (config.GetLogLevel DefaultConfig) with
  | None => impl.Build New DefaultConfig c dep = Returns (inr impl.ErrLogger)
  | Some lg =>
      match impl.ExtraData dep !! "opCommandFunc" with
      | Some impl.Nil => impl.Build New DefaultConfig c dep = Panics impl.nilDereference
      | Some (impl.OfCheckOPCmdFunc (Some op)) =>
          match impl.ExtraData dep !! "checkInFunc" with
          | Some impl.Nil =>
              impl.Build New DefaultConfig c dep = Panics impl.nilDereference
          | Some (impl.OfCheckInFunc (Some checkIn)) =>
              impl.Build New DefaultConfig c dep
              = Returns (inl {| impl.sysContext := impl.sysContext c;
                                impl.logger := Some lg;
                                impl.opCommandFunc := Some op;
                                impl.checkInFunc := Some checkIn;
                                impl.properties := impl.properties c |})
          | _ => impl.Build New DefaultConfig c dep = Returns (inr impl.ErrCheckInFunc)
          end
      | _ => impl.Build New DefaultConfig c dep = Returns (inr impl.ErrOpCommandFunc)
      end
  end.
Proof.
  destruct (New (logPath dep) (config.GetLogLevel DefaultConfig)) as [lg|] eqn:Hlog.
  2: { unfold impl.Build. cbn -[Nat.ltb size map_fold]. by rewrite Hlog. }
  destruct (impl.ExtraData dep !! "opCommandFunc") as [[|[op|]| | | | |]|] eqn:Hop.
  2: { destruct (impl.ExtraData dep !! "checkInFunc") as [[| |[checkIn|]| | | |]|] eqn:Hin.
       3: { unfold impl.Build; cbn -[Nat.ltb size map_fold].
            rewrite Hlog, Hop; cbn -[Nat.ltb size map_fold].
            rewrite Hin; cbn -[Nat.ltb size map_fold].
            pose proof (copy_properties (impl.properties c)) as Hcopy.
            destruct (0 <? size (impl.properties c)); cbn -[map_fold] in *.
            - by rewrite Hcopy.
            - by rewrite <- Hcopy. }
       all: unfold impl.Build; cbn -[Nat.ltb size map_fold];
         rewrite Hlog, Hop; cbn -[Nat.ltb size map_fold];
         rewrite Hin; cbn -[Nat.ltb size map_fold];
         by destruct (0 <? size (impl.properties c)). }
  all: unfold impl.Build; cbn -[Nat.ltb size map_fold];
    rewrite Hlog, Hop; cbn -[Nat.ltb size map_fold];
    by destruct (0 <? size (impl.properties c)).
Qed.

(** A context [Build] returns is complete: the extra data held both
    closures, and the context calls them. It has the logger of the job's log
    file, the system context of the template and the properties of the
    template; [OPCommand] returns what the op command closure returns and
    [Checkin] hands the status to the check-in closure and returns nil. *)
Theorem Build_context c dep ctx :
  impl.Build New DefaultConfig c dep = Returns (inl ctx) ->
  exists (op : impl.CheckOPCmdFunc Backend) (checkIn : impl.CheckInFunc Backend),
    impl.ExtraData dep !! "opCommandFunc" = Some (impl.OfCheckOPCmdFunc (Some op))
    /\ impl.ExtraData dep !! "checkInFunc" = Some (impl.OfCheckInFunc (Some checkIn))
    /\ is_Some (impl.GetLogger ctx)
    /\ impl.GetLogger ctx = New (logPath dep) (config.GetLogLevel DefaultConfig)
    /\ impl.SystemContext ctx = impl.SystemContext c
    /\ (forall prop, impl.Get ctx prop = impl.Get c prop)
    /\ (forall b, impl.OPCommand ctx b = Returns (op b))
    /\ (forall status b, impl.Checkin ctx status b = Returns (None, checkIn status b)).
Proof.
  intros Hbuild. pose proof (Build_cases c dep) as Hcases.
  destruct (New (logPath dep) (config.GetLogLevel DefaultConfig)) as [lg|];
    [|congruence].
  destruct (impl.ExtraData dep !! "opCommandFunc") as [[|[op|]| | | | |]|];
    try congruence.
  destruct (impl.ExtraData dep !! "checkInFunc") as [[| |[checkIn|]| | | |]|];
    try congruence.
  rewrite Hcases in Hbuild. injection Hbuild as <-.
  exists op, checkIn. by repeat split.
Qed.

(** [Build] returns a context exactly when there is a logger and the extra
    data hold both closures, neither of them nil; the context is then the
    template's with the logger and the closures. *)
Theorem Build_succeeds_iff c dep ctx :
  impl.Build New DefaultConfig c dep = Returns (inl ctx)
  <-> exists lg (op : impl.CheckOPCmdFunc Backend) (checkIn : impl.CheckInFunc Backend),
        New (logPath dep) (config.GetLogLevel DefaultConfig) = Some lg
        /\ impl.ExtraData dep !! "opCommandFunc" = Some (impl.OfCheckOPCmdFunc (Some op))
        /\ impl.ExtraData dep !! "checkInFunc" = Some (impl.OfCheckInFunc (Some checkIn))
        /\ ctx = {| impl.sysContext := impl.sysContext c;
                    impl.logger := Some lg;
                    impl.opCommandFunc := Some op;
                    impl.checkInFunc := Some checkIn;
                    impl.properties := impl.properties c |}.
Proof.
  pose proof (Build_cases c dep) as Hcases. split.
  - intros Hbuild.
    destruct (New (logPath dep) (config.GetLogLevel DefaultConfig)) as [lg|];
      [|congruence].
    destruct (impl.ExtraData dep !! "opCommandFunc") as [[|[op|]| | | | |]|];
      try congruence.
    destruct (impl.ExtraData dep !! "checkInFunc") as [[| |[checkIn|]| | | |]|];
      try congruence.
    rewrite Hcases in Hbuild. injection Hbuild as <-. by exists lg, op, checkIn.
  - intros (lg & op & checkIn & Hlog & Hop & Hin & ->).
    by rewrite Hlog, Hop, Hin in Hcases.
Qed.

(** Without a logger [Build] returns the error of the logger, whatever the
    extra data hold. *)
Theorem Build_logger_failure c dep :
  New (logPath dep) (config.GetLogLevel DefaultConfig) = None ->
  impl.Build New DefaultConfig c dep = Returns (inr impl.ErrLogger).
Proof. intros Hlog. pose proof (Build_cases c dep) as Hcases. by rewrite Hlog in Hcases. Qed.

(** With a logger, [Build] returns the error of the op command closure when
    the extra data have none (no entry, an entry of another type, or a nil
    func), and the error of the check-in closure when the op command closure
    is there and the check-in closure is not; an entry that holds the nil
    interface value is left aside. *)
Theorem Build_closure_errors c dep lg :
  New (logPath dep) (config.GetLogLevel DefaultConfig) = Some lg ->
  (impl.ExtraData dep !! "opCommandFunc" <> Some impl.Nil ->
   (forall f, impl.ExtraData dep !! "opCommandFunc"
              <> Some (impl.OfCheckOPCmdFunc (Some f))) ->
   impl.Build New DefaultConfig c dep = Returns (inr impl.ErrOpCommandFunc))
  /\ (forall op,
        impl.ExtraData dep !! "opCommandFunc" = Some (impl.OfCheckOPCmdFunc (Some op)) ->
        impl.ExtraData dep !! "checkInFunc" <> Some impl.Nil ->
        (forall f, impl.ExtraData dep !! "checkInFunc"
                   <> Some (impl.OfCheckInFunc (Some f))) ->
        impl.Build New DefaultConfig c dep = Returns (inr impl.ErrCheckInFunc)).
Proof.
  intros Hlog. pose proof (Build_cases c dep) as Hcases. rewrite Hlog in Hcases.
  split.
  - intros Hnil Hfunc.
    destruct (impl.ExtraData dep !! "opCommandFunc") as [[|[op|]| | | | |]|];
      try done.
    by destruct (Hfunc op).
  - intros op Hop Hnil Hfunc. rewrite Hop in Hcases.
    destruct (impl.ExtraData dep !! "checkInFunc") as [[| |[checkIn|]| | | |]|];
      try done.
    by destruct (Hfunc checkIn).
Qed.

(** [Build] panics in these cases only: there is a logger, and the entry of
    the op command closure holds the nil interface value, or the op command
    closure is there and the entry of the check-in closure holds the nil
    interface value. *)
Theorem Build_panics_iff c dep :
  (exists msg, impl.Build New DefaultConfig c dep = Panics msg)
  <-> New (logPath dep) (config.GetLogLevel DefaultConfig) <> None
      /\ (impl.ExtraData dep !! "opCommandFunc" = Some impl.Nil
          \/ ((exists op, impl.ExtraData dep !! "opCommandFunc"
                          = Some (impl.OfCheckOPCmdFunc (Some op)))
              /\ impl.ExtraData dep !! "checkInFunc" = Some impl.Nil)).
Proof.
  pose proof (Build_cases c dep) as Hcases.
  destruct (New (logPath dep) (config.GetLogLevel DefaultConfig)) as [lg|].
  2: { rewrite Hcases. split; [by intros [msg ?] | by intros [? _]]. }
  destruct (impl.ExtraData dep !! "opCommandFunc") as [[|[op|]| | | | |]|].
  2: destruct (impl.ExtraData dep !! "checkInFunc") as [[| |[checkIn|]| | | |]|].
  all: rewrite Hcases; split;
    [ intros [msg Hmsg]; first [discriminate | split; [done|]; eauto 6]
    | intros [_ [Hop|[[op' Hop] Hin]]]; first [discriminate | by eexists] ].
Qed.

End ContextMore.

Section JobLogFacts.

Variable U : utils.Utils.
Variable L : config.Libs.
Context {Backend SysContext Logger : Type}.
Variable New : string -> string -> option Logger.

(** The log [GetJobLogData] returns for the id of a job is the file the
    logger of the job's context was made for. *)
Theorem GetJobLogData_reads_job_log (DefaultConfig : config.Configuration)
    (c ctx : impl.Context Backend SysContext Logger) (dep : impl.JobData Backend)
    (data : string) :
  impl.Build New DefaultConfig c dep = Returns (inl ctx) ->
  core.GetJobLogData U L DefaultConfig (impl.ID dep) = inl data ->
  exists path,
    impl.GetLogger ctx = New path (config.GetLogLevel DefaultConfig)
    /\ utils.FileExists U path = true
    /\ config.ReadFile L path = inl data.
Proof.
  intros Hbuild Hdata.
  exists (config.GetLogBasePath DefaultConfig ++ "/" ++ impl.ID dep ++ ".log")%string.
  pose proof (Build_cases New DefaultConfig c dep) as Hcases.
  destruct (New _ (config.GetLogLevel DefaultConfig)) as [lg|]; [|congruence].
  destruct (impl.ExtraData dep !! "opCommandFunc") as [[|[op|]| | | | |]|];
    try congruence.
  destruct (impl.ExtraData dep !! "checkInFunc") as [[| |[checkIn|]| | | |]|];
    try congruence.
  rewrite Hcases in Hbuild. injection Hbuild as <-.
  split; [reflexivity|].
  unfold core.GetJobLogData in Hdata.
  destruct (utils.IsEmptyStr U (impl.ID dep)); [discriminate|].
  destruct (utils.FileExists U _); [|discriminate]. split; [reflexivity|].
  cbn [negb] in Hdata. by destruct (config.ReadFile L _) as [logData|msg]; [injection Hdata as ->|].
Qed.

End JobLogFacts.

(** ** The registry of jobs, once more *)

(** No call of [Register] removes or replaces a registration: the registry
    only grows. *)
Theorem Register_never_overwrites {JobFunc : Type} (jobs jobs' : gmap string JobFunc) :
  runtime.later_registry jobs jobs' -> jobs ⊆ jobs'.
Proof.
  intros Hlater. apply map_subseteq_spec. intros name f Hname.
  by eapply later_registry_keeps.
Qed.

Lemma Register_never_overwrites_witness :
  <["DEMO" := 1]> (∅ : gmap string nat)
  ⊆ fst (runtime.Register "DEMO" 2
           (fst (runtime.Register "OTHER" 3 (<["DEMO" := 1]> (∅ : gmap string nat))))).
Proof.
  apply Register_never_overwrites.
  apply runtime.later_call, runtime.later_call, runtime.later_now.
Defined.

(** ** The properties above on the samples *)

Lemma validate_ignores_witness :
  config.validate (sample.U ∅ [] sample.dirs) sample.L
    (config.setHTTPSConfig
       (Some {| config.Cert := ""; config.Key := "" |}) (sample.cfg "INFO"))
  = config.validate (sample.U ∅ [] sample.dirs) sample.L (sample.cfg "INFO").
Proof.
  apply (proj2 (validate_ignores (sample.U ∅ [] sample.dirs) sample.L
                  (sample.cfg "INFO") 0%Z _)).
  reflexivity.
Defined.

Lemma loadEnvs_no_env_witness :
  config.loadEnvs (sample.U ∅ [] []) (sample.cfg "INFO") = sample.cfg "INFO".
Proof.
  apply loadEnvs_no_env. intros key. cbn. rewrite lookup_empty. reflexivity.
Defined.

Lemma loadEnvs_overrides_witness :
  exists l,
    config.LoggerConfig (config.loadEnvs (sample.U sample.env [] []) (sample.cfg "INFO"))
    = Some l
    /\ config.LogLevel l = "DEBUG"%string.
Proof.
  destruct (loadEnvs_overrides (sample.U sample.env [] []) (sample.cfg "INFO"))
    as (_ & _ & _ & Hlevel).
  apply Hlevel. vm_compute. reflexivity.
Defined.

Lemma loadEnvs_port_number_witness :
  config.Port
    (config.loadEnvs (sample.U {[ "JOB_SERVICE_PORT" := "-1" ]} [] []) (sample.cfg "INFO"))
  = 18446744073709551615%Z.
Proof.
  destruct (loadEnvs_port_number (sample.U {[ "JOB_SERVICE_PORT" := "-1" ]} [] [])
              (sample.cfg "INFO")) as [_ Hnumber].
  - vm_compute. reflexivity.
  - destruct (Hnumber (-1)%Z) as [_ Hwraps].
    + vm_compute. reflexivity.
    + destruct Hwraps as [Hport _]; [lia|]. exact Hport.
Defined.

Lemma loadEnvs_https_only_witness :
  config.HTTPSConfig
    (config.loadEnvs (sample.U {[ "JOB_SERVICE_HTTPS_CERT" := "server.crt" ]} [] [])
       (sample.cfg "INFO"))
  = None.
Proof.
  apply (proj1 (loadEnvs_https_only
                  (sample.U {[ "JOB_SERVICE_HTTPS_CERT" := "server.crt" ]} [] [])
                  (sample.cfg "INFO"))).
  vm_compute. discriminate.
Defined.

Lemma loadEnvs_redis_only_witness :
  config.PoolConfig
    (config.loadEnvs (sample.U {[ "JOB_SERVICE_POOL_REDIS_URL" := "redis:6379" ]} [] [])
       sample.otherBackend) ≫= config.RedisPoolCfg
  = None.
Proof.
  apply (proj1 (loadEnvs_redis_only
                  (sample.U {[ "JOB_SERVICE_POOL_REDIS_URL" := "redis:6379" ]} [] [])
                  sample.otherBackend)).
  intros p. vm_compute. intros [= <-]. discriminate.
Defined.

Lemma Load_file_errors_witness :
  config.Load (sample.U sample.env sample.files sample.dirs) sample.L
    "missing.yml" true (sample.cfg "INFO")
  = (sample.cfg "INFO", Some (config.ErrReadFile "no such file or directory")).
Proof.
  apply (proj1 (Load_file_errors (sample.U sample.env sample.files sample.dirs) sample.L
                  "missing.yml" true (sample.cfg "INFO") eq_refl)).
  reflexivity.
Defined.

Lemma Load_env_overrides_file_witness :
  config.GetLogLevel
    (config.Load (sample.U sample.env sample.files sample.dirs) sample.L
       "config.yml" true config.zeroConfiguration).1
  = "DEBUG"%string.
Proof.
  apply (proj2 (Load_env_overrides_file
                  (sample.U sample.env sample.files sample.dirs) sample.L
                  "config.yml" config.zeroConfiguration
                  ltac:(intros msg; vm_compute; discriminate)
                  ltac:(intros msg; vm_compute; discriminate))).
  vm_compute. reflexivity.
Defined.

Lemma Load_getters_witness :
  config.LoggerConfig sample.loaded
  = Some {| config.BasePath := "/Users/szou/tmp/job_logs"; config.LogLevel := "DEBUG";
            config.ArchivePeriod := 1 |}
  /\ config.GetLogBasePath sample.loaded = "/Users/szou/tmp/job_logs"%string
  /\ config.GetLogLevel sample.loaded = "DEBUG"%string
  /\ config.GetLogArchivePeriod sample.loaded = 1%Z
  /\ utils.DirExists (sample.U sample.env sample.files sample.dirs)
       (config.GetLogBasePath sample.loaded) = true
  /\ Go.Contains "DEBUG,INFO,WARNING,ERROR,FATAL" (config.GetLogLevel sample.loaded) = true
  /\ config.GetLogArchivePeriod sample.loaded <> 0%Z.
Proof.
  destruct (Load_getters (sample.U sample.env sample.files sample.dirs) sample.L
              "config.yml" true config.zeroConfiguration sample.loaded)
    as (l & Hl & Hpath & Hlevel & Hperiod & Hrest); [vm_compute; reflexivity|].
  split; [reflexivity|].
  injection Hl as <-. split; [exact Hpath|]. split; [exact Hlevel|].
  split; [exact Hperiod|exact Hrest].
Defined.

Lemma empty_job_id_witness :
  core.CancelJob (Ctl := sample.demoControl) (sample.U ∅ [] []) "  " 1
  = (Some core.ErrEmptyJobID, 1).
Proof.
  destruct (empty_job_id (Ctl := sample.demoControl) (sample.U ∅ [] []) sample.L
              "  " 1 (sample.cfg "INFO")) as (_ & _ & Hcancel & _).
  - vm_compute. reflexivity.
  - exact Hcancel.
Defined.

Lemma Build_context_witness :
  impl.OPCommand
    {| impl.sysContext := tt; impl.logger := Some tt;
       impl.opCommandFunc := Some (fun b : nat => (("stop"%string, true), b));
       impl.checkInFunc := Some (fun (status : string) (b : nat) => S b);
       impl.properties := ∅ |} 0
  = Returns (("stop"%string, true), 0).
Proof.
  destruct (Build_context (SysContext := unit) (fun _ _ => Some tt) (sample.cfg "INFO")
              (impl.NewContext tt) sample.jobData
              {| impl.sysContext := tt; impl.logger := Some tt;
                 impl.opCommandFunc := Some (fun b : nat => (("stop"%string, true), b));
                 impl.checkInFunc := Some (fun (status : string) (b : nat) => S b);
                 impl.properties := ∅ |})
    as (op & checkIn & Hop & _ & _ & _ & _ & _ & Hcommand & _).
  - reflexivity.
  - rewrite Hcommand. injection Hop as <-. reflexivity.
Defined.

Lemma Build_logger_failure_witness :
  impl.Build (SysContext := unit) (Logger := unit) (fun _ _ => None) (sample.cfg "INFO")
    (impl.NewContext tt) sample.jobData
  = Returns (inr impl.ErrLogger).
Proof. apply Build_logger_failure. reflexivity. Defined.

Lemma Build_closure_errors_witness :
  impl.Build (Backend := nat) (SysContext := unit) (fun _ _ => Some tt) (sample.cfg "INFO")
    (impl.NewContext tt)
    {| impl.ID := "job"; impl.Args := ∅;
       impl.ExtraData := {[ "opCommandFunc" := impl.OfString "stop" ]} |}
  = Returns (inr impl.ErrOpCommandFunc).
Proof.
  apply (proj1 (Build_closure_errors (fun _ _ => Some tt) (sample.cfg "INFO")
                  (impl.NewContext tt) _ tt eq_refl)).
  - vm_compute. discriminate.
  - intros f. vm_compute. discriminate.
Defined.

Lemma GetJobLogData_reads_job_log_witness :
  exists path,
    Some tt = Some tt
    /\ utils.FileExists (sample.U ∅ ["/var/log/jobs/job.log"] sample.dirs) path = true
    /\ config.ReadFile sample.logL path = inl "I'm running"%string.
Proof.
  apply (GetJobLogData_reads_job_log
           (sample.U ∅ ["/var/log/jobs/job.log"] sample.dirs) sample.logL
           (SysContext := unit) (fun _ _ => Some tt) (sample.cfg "INFO")
           (impl.NewContext tt)
           {| impl.sysContext := tt; impl.logger := Some tt;
              impl.opCommandFunc := Some (fun b : nat => (("stop"%string, true), b));
              impl.checkInFunc := Some (fun (status : string) (b : nat) => S b);
              impl.properties := ∅ |}
           sample.jobData "I'm running").
  - reflexivity.
  - vm_compute. reflexivity.
Defined.

Lemma translateRedisURL_frame_witness :
  config.translateRedisURL (sample.U ∅ [] []) sample.L sample.loaded = sample.loaded.
Proof.
  apply (translateRedisURL_frame (sample.U ∅ [] []) sample.L sample.loaded).
  right. left. split; reflexivity.
Defined.

Lemma LaunchJob_dispatch_table_witness :
  exists res err p3,
    pool.Schedule (Interface := sample.demoPool) "DEMO"
      {["image" := models.VString "demo-x"]} 90 false 0 = ((res, err), p3)
    /\ exists rest,
         core.calls
           (core.LaunchJob (Pool := sample.demoPool) (sample.U ∅ [] []) sample.cronParse
              (sample.request "Scheduled" 90 "")
              {| core.backendPool := 0; core.calls := [] |}).2
         = ([core.EvIsKnownJob "DEMO" true;
             core.EvValidateJobParameters {["image" := models.VString "demo-x"]} None;
             core.EvSchedule "DEMO" {["image" := models.VString "demo-x"]} 90 false
               res err] ++ rest)%list.
Proof.
  destruct (LaunchJob_dispatch_table (Pool := sample.demoPool) (sample.U ∅ [] [])
              sample.cronParse (sample.request "Scheduled" 90 "")
              {| models.Name := "DEMO";
                 models.Parameters := {["image" := models.VString "demo-x"]};
                 models.Metadata :=
                   Some {| models.JobKind := "Scheduled"; models.ScheduleDelay := 90;
                           models.Cron := ""; models.IsUnique := false |};
                 models.StatusHook := "" |}
              {| models.JobKind := "Scheduled"; models.ScheduleDelay := 90;
                 models.Cron := ""; models.IsUnique := false |}
              {| core.backendPool := 0; core.calls := [] |}
              tt 0 0)
    as (res & err & p3 & ev & rest & Htable & Hcalls & _).
  - vm_compute. reflexivity.
  - reflexivity.
  - reflexivity.
  - reflexivity.
  - vm_compute. reflexivity.
  - destruct Htable as [(_ & Hcall & ->)|[(Hkind & _)|(Hkind & _)]];
      [|discriminate Hkind..].
    exists res, err, p3. split; [exact Hcall|]. exists rest. exact Hcalls.
Defined.

Lemma LaunchJob_without_hook_witness :
  exists ev,
    core.LaunchJob (Pool := sample.fullPool) (sample.U ∅ [] []) sample.cronParse
      (sample.request "Generic" 0 "http://hook")
      {| core.backendPool := 0; core.calls := [] |}
    = (Returns (sample.stats "" "DEMO" "Generic" false,
                Some (core.ErrPool "queue is full")),
       {| core.backendPool := 0;
          core.calls :=
            [core.EvIsKnownJob "DEMO" true;
             core.EvValidateJobParameters {["image" := models.VString "demo-x"]} None;
             ev] |})
    /\ core.answered ev
       = Some (sample.stats "" "DEMO" "Generic" false, Some "queue is full"%string)
    /\ core.isRegisterHook ev = false.
Proof.
  destruct (LaunchJob_without_hook (Pool := sample.fullPool) (sample.U ∅ [] [])
           sample.cronParse (sample.request "Generic" 0 "http://hook")
           {| models.Name := "DEMO";
              models.Parameters := {["image" := models.VString "demo-x"]};
              models.Metadata :=
                Some {| models.JobKind := "Generic"; models.ScheduleDelay := 0;
                        models.Cron := ""; models.IsUnique := false |};
              models.StatusHook := "http://hook" |}
           {| models.JobKind := "Generic"; models.ScheduleDelay := 0;
              models.Cron := ""; models.IsUnique := false |}
           {| core.backendPool := 0; core.calls := [] |}
           tt 0 0 (sample.stats "" "DEMO" "Generic" false)
           (Some "queue is full"%string) 0) as (ev & Hrun & Hanswered & Hhook).
  - vm_compute. reflexivity.
  - reflexivity.
  - reflexivity.
  - reflexivity.
  - vm_compute. reflexivity.
  - right. right. split; reflexivity.
  - left. discriminate.
  - exists ev. split; [exact Hrun|]. split; [exact Hanswered|exact Hhook].
Defined.
